(** * ContractAnalyzer: the Etherscan client and the windowed fetch

    A shallow embedding of
      - src/api/etherscan.api.ts          (module [EtherscanAPI]),
      - src/services/etherscan.service.ts (module [EtherscanService]),
      - src/utils/general.utils.ts        ([sleep]),
      - src/get-logs.ts                   (module [GetLogs]),
    over a small model of the JavaScript values the code touches.

    Conventions.
      - A JavaScript [number] is NaN, an infinity, or an integer-valued
        double [Num z]; -0 is not told from 0 (the program never divides by
        one).  [roundInt] is the rounding of IEEE 754 to the nearest double,
        ties to even, and [doubleAdd] the sum of doubles.  The service is
        embedded twice: [EtherscanService] adds exactly, which is the code
        as long as every number stays within 2^53; [OnDoubles] adds as the
        code does, everywhere.  On ranges within 2^53 the two are the same
        (lemmas [onDoubles_internalTransactions_exact] and
        [onDoubles_logs_exact]).
      - A string is a [String.string]; its characters stand for the code
        units below 256.
      - The remote API, the clock and the console are effects: a run threads
        a [State] made of the remote's own state and the trace of events.
      - The retry of the client is unbounded in the source, so the client
        takes a fuel: the number of attempts it may make.  [OutOfFuel] is
        the run that is still retrying; it is neither a value nor an
        exception. *)

From Stdlib Require Import ZArith List String Ascii Bool Lia DecimalString Sorted HexString.
Import ListNotations.
Local Open Scope string_scope.
Local Open Scope Z_scope.
Local Open Scope list_scope.

Infix "^^" := String.append (at level 60, right associativity).

Set Warnings "-register-all".

(* ================================================================== *)
(** ** JavaScript values *)

Module JS.

(** The values a decoded JSON body is made of, and [undefined]. *)
Inductive JValue : Type :=
| JUndefined
| JNull
| JBool (b : bool)
| JNumber (z : Z)
| JString (s : string)
| JArray (items : list JValue)
| JObject (fields : list (string * JValue)).

(** A JavaScript number as the program sees one. *)
Inductive number : Type :=
| NaN
| Num (z : Z)
| Infinity
| NegInfinity.

(** The double nearest to the integer [z], ties to even (IEEE 754
    roundTiesToEven): an integer below 2^53 in magnitude is a double; above,
    the doubles are the multiples of 2^shift with 53 significant bits, and
    from 2^1024 - 2^970 on the result is an infinity. *)
Definition roundInt (z : Z) : number :=
  let a := Z.abs z in
  if a <? 2 ^ 53 then Num z
  else
    let shift := Z.log2 a - 52 in
    let q := a / 2 ^ shift in
    let r := a mod 2 ^ shift in
    let half := 2 ^ (shift - 1) in
    let q' :=
      if r <? half then q
      else if half <? r then q + 1
      else if Z.even q then q else q + 1 in
    let m := q' * 2 ^ shift in
    if 2 ^ 1024 <=? m
    then (if z <? 0 then NegInfinity else Infinity)
    else Num (Z.sgn z * m).

(** An exception value: [new Error(message)], a [TypeError], an error of the
    transport. *)
Record JSError : Type := mkError { errName : string; errMessage : string }.

Definition Error (message : string) : JSError := mkError "Error" message.
Definition TypeError (message : string) : JSError := mkError "TypeError" message.

(** [`${error}`]: Error.prototype.toString (ECMAScript 20.5.3.4): the name
    alone when the message is empty, the message alone when the name is. *)
Definition errorToString (e : JSError) : string :=
  if String.eqb (errName e) "" then errMessage e
  else if String.eqb (errMessage e) "" then errName e
  else errName e ^^ ": " ^^ errMessage e.

Definition string_of_Z (z : Z) : string := NilZero.string_of_int (Z.to_int z).

Definition roundsTo (x v : Z) : bool :=
  match roundInt x with
  | Num y => y =? v
  | _ => false
  end.

(** The shortest decimal digits that denote the double [v] > 0 of [n]
    decimal digits (ECMAScript 6.1.6.1.20, step 5): the least [k] and the
    [s] of [k] digits with [s * 10^(n-k)] rounding to [v], the closest to
    [v] when there are two; the result is [s] and the [n] it goes with. *)
Fixpoint shortestFrom (fuel : nat) (k n v : Z) : Z * Z :=
  match fuel with
  | O => (v, n)
  | S fuel' =>
      let p := 10 ^ (n - k) in
      let lo := v / p in
      let hi := lo + 1 in
      let found s := if s =? 10 ^ k then (1, n + 1) else (s, n) in
      if roundsTo (lo * p) v
      then
        if roundsTo (hi * p) v
        then
          let dlo := v - lo * p in
          let dhi := hi * p - v in
          if dlo <? dhi then found lo
          else if dhi <? dlo then found hi
          else if Z.even lo then found lo else found hi
        else found lo
      else if roundsTo (hi * p) v then found hi
      else shortestFrom fuel' (k + 1) n v
  end.

Definition decimalLength (z : Z) : Z := Z.of_nat (String.length (string_of_Z z)).

Fixpoint zeros (n : nat) : string :=
  match n with
  | O => ""
  | S n' => String "0" (zeros n')
  end.

(** Number::toString in radix 10 of a double [v] >= 2^53: its shortest
    digits, followed by zeros up to 21 digits, in exponent form beyond. *)
Definition largeToString (v : Z) : string :=
  let '(s, n) := shortestFrom 17 1 (decimalLength v) v in
  let digits := string_of_Z s in
  if n <=? 21
  then digits ^^ zeros (Z.to_nat (n - decimalLength s))
  else
    match digits with
    | String d EmptyString => String d ("e+" ^^ string_of_Z (n - 1))
    | String d rest => String d ("." ^^ rest ^^ "e+" ^^ string_of_Z (n - 1))
    | EmptyString => digits
    end.

Definition numberToString (n : number) : string :=
  match n with
  | NaN => "NaN"
  | Infinity => "Infinity"
  | NegInfinity => "-Infinity"
  | Num z =>
      if Z.abs z <? 2 ^ 53 then string_of_Z z
      else if z <? 0 then String "-" (largeToString (Z.abs z))
      else largeToString z
  end.

Fixpoint join (sep : string) (parts : list string) : string :=
  match parts with
  | [] => ""
  | [p] => p
  | p :: rest => p ^^ sep ^^ join sep rest
  end.

(** ToString: [String(v)].  A number of the body is the double nearest to
    what was written there.  An array joins its elements with a comma, null
    and undefined elements as the empty string. *)
Fixpoint toString (v : JValue) : string :=
  match v with
  | JUndefined => "undefined"
  | JNull => "null"
  | JBool true => "true"
  | JBool false => "false"
  | JNumber z => numberToString (roundInt z)
  | JString s => s
  | JArray items =>
      join "," (map (fun item =>
                       match item with
                       | JUndefined | JNull => ""
                       | _ => toString item
                       end) items)
  | JObject _ => "[object Object]"
  end.

(** ToBoolean: what [if (v)] tests. *)
Definition truthy (v : JValue) : bool :=
  match v with
  | JUndefined | JNull => false
  | JBool b => b
  | JNumber z => negb (z =? 0)
  | JString s => negb (String.eqb s "")
  | JArray _ | JObject _ => true
  end.

(** [v === "literal"]. *)
Definition strictEqString (v : JValue) (literal : string) : bool :=
  match v with
  | JString s => String.eqb s literal
  | _ => false
  end.

Fixpoint lookup (key : string) (fields : list (string * JValue)) : JValue :=
  match fields with
  | [] => JUndefined
  | (k, v) :: rest => if String.eqb k key then v else lookup key rest
  end.

(** [v.key] for the keys the program reads (status, message, result): a
    property of undefined or null throws, an object is looked up, and a
    primitive or an array has no such property. *)
Definition getProp (v : JValue) (key : string) : JSError + JValue :=
  match v with
  | JUndefined =>
      inl (TypeError ("Cannot read properties of undefined (reading '" ^^ key ^^ "')"))
  | JNull =>
      inl (TypeError ("Cannot read properties of null (reading '" ^^ key ^^ "')"))
  | JObject fields => inr (lookup key fields)
  | _ => inr JUndefined
  end.

(** [v.slice(0, n)]: a string and an array have the method; on undefined and
    null the property read throws; a number, a boolean and a JSON object
    have no callable [slice]. *)
Definition slice0 (v : JValue) (n : nat) : JSError + JValue :=
  match v with
  | JString s => inr (JString (substring 0 n s))
  | JArray items => inr (JArray (firstn n items))
  | JUndefined =>
      inl (TypeError "Cannot read properties of undefined (reading 'slice')")
  | JNull =>
      inl (TypeError "Cannot read properties of null (reading 'slice')")
  | _ => inl (TypeError "response.data.message.slice is not a function")
  end.

(** *** parseInt *)

Definition isStrWhiteSpaceChar (c : ascii) : bool :=
  let n := nat_of_ascii c in
  ((9 <=? n) && (n <=? 13) || (n =? 32) || (n =? 160))%nat.

Fixpoint trimStart (s : string) : string :=
  match s with
  | String c rest => if isStrWhiteSpaceChar c then trimStart rest else s
  | EmptyString => s
  end.

(** The value of a digit in radix up to 36. *)
Definition digitValue (c : ascii) : option Z :=
  let n := Z.of_nat (nat_of_ascii c) in
  if (48 <=? n) && (n <=? 57) then Some (n - 48)
  else if (97 <=? n) && (n <=? 122) then Some (n - 87)
  else if (65 <=? n) && (n <=? 90) then Some (n - 55)
  else None.

(** The longest prefix of radix-[R] digits, read as an integer; [acc] is
    [None] until a digit was read. *)
Fixpoint parseDigits (R : Z) (s : string) (acc : option Z) : option Z :=
  match s with
  | String c rest =>
      match digitValue c with
      | Some d =>
          if d <? R
          then parseDigits R rest
                 (Some (R * match acc with Some a => a | None => 0 end + d))
          else acc
      | None => acc
      end
  | EmptyString => acc
  end.

Definition stripSign (s : string) : Z * string :=
  match s with
  | String "-" rest => (-1, rest)
  | String "+" rest => (1, rest)
  | _ => (1, s)
  end.

Definition stripHexPrefix (s : string) : string :=
  match s with
  | String "0" (String "x" rest) => rest
  | String "0" (String "X" rest) => rest
  | _ => s
  end.

Definition hasHexPrefix (s : string) : bool :=
  match s with
  | String "0" (String "x" _) => true
  | String "0" (String "X" _) => true
  | _ => false
  end.

(** The number of the digits read, with its sign: the double nearest to
    the integer they denote. *)
Definition digitsToNumber (sign : Z) (digits : option Z) : number :=
  match digits with
  | Some z => roundInt (sign * z)
  | None => NaN
  end.

(** [parseInt(string, radix)] (ECMAScript 19.2.5): leading white space and a
    sign are skipped; radix 0 means 10; with radix 0 or 16 a prefix 0x or 0X
    is skipped and the radix is 16; no digit at all gives NaN; the integer
    read is rounded to a double.  (In radix 10 an engine may replace the
    digits after the twentieth by zeros before it rounds; the program reads
    in radix 16, where the integer is exact.) *)
Definition parseInt (v : JValue) (radix : Z) : number :=
  let '(sign, input) := stripSign (trimStart (toString v)) in
  if radix =? 0 then
    if hasHexPrefix input
    then digitsToNumber sign (parseDigits 16 (stripHexPrefix input) None)
    else digitsToNumber sign (parseDigits 10 input None)
  else if (radix <? 2) || (36 <? radix) then NaN
  else
    let input := if radix =? 16 then stripHexPrefix input else input in
    digitsToNumber sign (parseDigits radix input None).

(** Arithmetic and comparison of numbers: NaN is absorbing, and every
    comparison with it is false.  [numAdd] is the exact sum: the sum of the
    code as long as it stays within 2^53 (lemma [doubleAdd_exact]). *)
Definition numAdd (a : number) (k : Z) : number :=
  match a with
  | Num z => Num (z + k)
  | other => other
  end.

(** [a + k] as the code computes it: the exact sum, rounded to a double. *)
Definition doubleAdd (a : number) (k : Z) : number :=
  match a with
  | Num z => roundInt (z + k)
  | other => other
  end.

Definition numLe (a b : number) : bool :=
  match a, b with
  | NaN, _ | _, NaN => false
  | Num x, Num y => x <=? y
  | NegInfinity, _ => true
  | _, Infinity => true
  | _, _ => false
  end.

Definition numLt (a b : number) : bool :=
  match a, b with
  | NaN, _ | _, NaN => false
  | Num x, Num y => x <? y
  | Infinity, _ => false
  | _, NegInfinity => false
  | _, _ => true
  end.

(** [[...items]] of a value: an array and a string are iterable. *)
Fixpoint chars (s : string) : list JValue :=
  match s with
  | EmptyString => []
  | String c rest => JString (String c EmptyString) :: chars rest
  end.

Definition spread (v : JValue) : JSError + list JValue :=
  match v with
  | JArray items => inr items
  | JString s => inr (chars s)
  | _ => inl (TypeError "data is not iterable")
  end.

End JS.
Import JS.


(* ================================================================== *)
(** ** Effects: the remote API, the clock, the console, the file system *)

(** The query string of an [axios.get] on [EtherscanConstants.BASE_URL]:
    the [params] object of each of the three calls, field for field. *)
Inductive Request : Type :=
| ReqBlockNumber (apikey : string)
    (* module: proxy, action: eth_blockNumber *)
| ReqTxListInternal (address apikey : string) (startblock endblock : number)
    (* module: account, action: txlistinternal *)
| ReqGetLogs (fromBlock toBlock : number) (address topic0 apikey : string).
    (* module: logs, action: getLogs *)

(** What [await axios.get(...)] comes back with: a rejection, or a response
    whose [data] is the decoded body. *)
Inductive AxiosResult : Type :=
| AxiosReject (error : JSError)
| AxiosResolve (data : JValue).

(** The remote and the environment of a run.  [World] is whatever state the
    remote and the file system keep; [axios_get] answers one request and
    moves that state; [fs_writeFileSync] writes the records, serialised, to
    a path, and gives the exception of the write when it fails (ENOENT,
    EACCES, ...). *)
Class Platform : Type := {
  World : Type;
  axios_get : Request -> World -> AxiosResult * World;
  fs_writeFileSync : string -> list JValue -> World -> option JSError * World;
  ETHERSCAN_API_KEY : string
}.

(** The text the program prints, by template and arguments; [render] gives
    the characters. *)
Inductive ConsoleMessage : Type :=
| MsgProcessing (start end_ : number)
| MsgWaitRetry
| MsgWarnInternalTxs (address : string) (error : JSError)
| MsgWarnLogs (address : string) (error : JSError)
| MsgGettingLogs (startBlock endblock : number)
| MsgFound (count : nat).

Definition render (m : ConsoleMessage) : string :=
  match m with
  | MsgProcessing start end_ =>
      "Processing from " ^^ numberToString start ^^ " to " ^^ numberToString end_
  | MsgWaitRetry => "Wait for 1 second and retry"
  | MsgWarnInternalTxs address error =>
      "Warning: Could not fetch internal transactions for " ^^ address ^^ ": "
        ^^ errorToString error
  | MsgWarnLogs address error =>
      "Warning: Could not fetch logs for " ^^ address ^^ ": " ^^ errorToString error
  | MsgGettingLogs startBlock endblock =>
      "Getting logs from block " ^^ numberToString startBlock ^^ " to "
        ^^ numberToString endblock
  | MsgFound count =>
      "Found " ^^ string_of_Z (Z.of_nat count) ^^ " Logs"
  end.

Inductive Event : Type :=
| EvAxiosGet (request : Request)
| EvSleep (milliseconds : Z)
| EvConsoleLog (message : ConsoleMessage)
| EvConsoleWarn (message : ConsoleMessage)
| EvWriteFile (path : string) (json : list JValue).
    (* the write was tried *)

Inductive Outcome (A : Type) : Type :=
| Return (a : A)
| Throw (error : JSError)
| OutOfFuel.
Arguments Return {A} a.
Arguments Throw {A} error.
Arguments OutOfFuel {A}.

Definition isThrow {A} (o : Outcome A) : bool :=
  match o with Throw _ => true | _ => false end.

Definition isReturn {A} (o : Outcome A) : bool :=
  match o with Return _ => true | _ => false end.

Section Monad.
Context {P : Platform}.

(** The state of a run: the remote, and the events so far, oldest first. *)
Record State : Type := mkState { world : World; trace : list Event }.

Definition M (A : Type) : Type := State -> Outcome A * State.

Definition ret {A} (a : A) : M A := fun st => (Return a, st).

Definition throw {A} (error : JSError) : M A := fun st => (Throw error, st).

Definition diverge {A} : M A := fun st => (OutOfFuel, st).

Definition bind {A B} (m : M A) (k : A -> M B) : M B :=
  fun st =>
    match m st with
    | (Return a, st') => k a st'
    | (Throw error, st') => (Throw error, st')
    | (OutOfFuel, st') => (OutOfFuel, st')
    end.

(** [try { body } catch (error) { handler }]. *)
Definition tryCatch {A} (body : M A) (handler : JSError -> M A) : M A :=
  fun st =>
    match body st with
    | (Throw error, st') => handler error st'
    | other => other
    end.

(** A pure step that may throw. *)
Definition lift {A} (r : JSError + A) : M A :=
  match r with
  | inl error => throw error
  | inr a => ret a
  end.

Definition emit (ev : Event) : M unit :=
  fun st => (Return tt, mkState (world st) (trace st ++ [ev])).

(** The state after the request went out and the remote moved to [w]. *)
Definition requested (st : State) (request : Request) (w : World) : State :=
  mkState w (trace st ++ [EvAxiosGet request]).

(** The state after the events [evs]. *)
Definition logged (st : State) (evs : list Event) : State :=
  mkState (world st) (trace st ++ evs).

Definition console_log (m : ConsoleMessage) : M unit := emit (EvConsoleLog m).
Definition console_warn (m : ConsoleMessage) : M unit := emit (EvConsoleWarn m).

(** [await axios.get(BASE_URL, { params })]: the request goes out, the
    remote answers; a rejection is thrown at the [await]. *)
Definition axios_get_await (request : Request) : M JValue :=
  fun st =>
    let '(answer, w) := axios_get request (world st) in
    let st' := mkState w (trace st ++ [EvAxiosGet request]) in
    match answer with
    | AxiosReject error => (Throw error, st')
    | AxiosResolve data => (Return data, st')
    end.

(** src/utils/general.utils.ts: [sleep]. *)
Definition sleep (milliseconds : Z) : M unit :=
  if milliseconds <=? 0 then ret tt else emit (EvSleep milliseconds).

(** [fs.writeFileSync(path, JSON.stringify(json))]: the write is tried,
    and what it throws is thrown. *)
Definition writeFileSync (path : string) (json : list JValue) : M unit :=
  fun st =>
    let '(failure, w) := fs_writeFileSync path json (world st) in
    let st' := mkState w (trace st ++ [EvWriteFile path json]) in
    match failure with
    | Some error => (Throw error, st')
    | None => (Return tt, st')
    end.

End Monad.

Declare Scope js_scope.
Delimit Scope js_scope with js.
Notation "x <- m ;; k" := (bind m (fun x => k))
  (at level 100, m at next level, right associativity) : js_scope.
Notation "m ;; k" := (bind m (fun _ => k))
  (at level 100, right associativity) : js_scope.
Local Open Scope js_scope.

(* ================================================================== *)
(** ** src/api/etherscan.api.ts *)

Module EtherscanAPI.
Section API.
Context {P : Platform}.

(** [getLatestBlock]: one request; a truthy [result] is parsed in radix 16;
    anything thrown inside is wrapped in a new Error and thrown again. *)
Definition getLatestBlock : M number :=
  tryCatch
    (data <- axios_get_await (ReqBlockNumber ETHERSCAN_API_KEY) ;;
     result <- lift (getProp data "result") ;;
     if truthy result
     then ret (parseInt result 16)
     else throw (Error "Failed to get latest block number"))
    (fun error =>
       throw (Error ("Error fetching latest block: " ^^ errorToString error))).

(** The condition of the retry, the same expression in both operations:
    [response.data.status === "0" &&
     response.data.message.slice(0, 5) === "NOTOK"].
    [&&] reads the message only when the status is "0". *)
Definition transientFailure (data : JValue) : M bool :=
  status <- lift (getProp data "status") ;;
  if strictEqString status "0"
  then
    message <- lift (getProp data "message") ;;
    prefix <- lift (slice0 message 5) ;;
    ret (strictEqString prefix "NOTOK")
  else ret false.

(** The two exits after the retry test: status "1" returns
    [response.data.result], anything else the empty array. *)
Definition successOrEmpty (data : JValue) : M JValue :=
  status <- lift (getProp data "status") ;;
  if strictEqString status "1"
  then lift (getProp data "result")
  else ret (JArray []).

(** [getInternalTransactionsByAddress]; [fuel] bounds the attempts. *)
Fixpoint getInternalTransactionsByAddress (fuel : nat) (address : string)
    (startblock endblock : number) : M JValue :=
  match fuel with
  | O => diverge
  | S fuel' =>
      tryCatch
        (data <- axios_get_await
                   (ReqTxListInternal address ETHERSCAN_API_KEY startblock endblock) ;;
         retry <- transientFailure data ;;
         if retry : bool
         then
           console_log MsgWaitRetry ;;
           sleep 1000 ;;
           result <- getInternalTransactionsByAddress fuel' address startblock endblock ;;
           ret result
         else successOrEmpty data)
        (fun error =>
           console_warn (MsgWarnInternalTxs address error) ;;
           ret (JArray []))
  end.

(** [getLogsByAddressTopic]; [fuel] bounds the attempts. *)
Fixpoint getLogsByAddressTopic (fuel : nat) (address topic : string)
    (startblock endblock : number) : M JValue :=
  match fuel with
  | O => diverge
  | S fuel' =>
      tryCatch
        (data <- axios_get_await
                   (ReqGetLogs startblock endblock address topic ETHERSCAN_API_KEY) ;;
         retry <- transientFailure data ;;
         if retry : bool
         then
           console_log MsgWaitRetry ;;
           sleep 1000 ;;
           result <- getLogsByAddressTopic fuel' address topic startblock endblock ;;
           ret result
         else successOrEmpty data)
        (fun error =>
           console_warn (MsgWarnLogs address error) ;;
           ret (JArray []))
  end.

End API.
End EtherscanAPI.

(* ================================================================== *)
(** ** src/services/etherscan.service.ts *)

Module EtherscanService.
Section Service.
Context {P : Platform}.

(** The service with exact sums.  The [for] loop runs while
    [block <= endblock] and adds a positive step, so with exact sums it
    ends: [iterations] bounds its passes, and the loops below take that
    bound as their fuel.  This is the code as long as every sum stays
    within 2^53; module [OnDoubles] below has the sums of the code. *)
Definition iterations (step : Z) (startblock endblock : number) : nat :=
  match startblock, endblock with
  | Num s, Num e => Z.to_nat ((e - s) / step + 1)
  | _, _ => O
  end.

(** [for (let block = startblock; block <= endblock; block += 10000)]. *)
Fixpoint internalTransactionsLoop (n : nat) (rfuel : nat) (address : string)
    (endblock block : number) (result : list JValue) : M (list JValue) :=
  match n with
  | O => diverge
  | S n' =>
      if numLe block endblock
      then
        let start := block in
        let end_ := if numLt (numAdd block 9999) endblock then numAdd block 9999 else endblock in
        console_log (MsgProcessing start end_) ;;
        data <- EtherscanAPI.getInternalTransactionsByAddress rfuel address start end_ ;;
        items <- lift (spread data) ;;
        internalTransactionsLoop n' rfuel address endblock (numAdd block 10000)
          (result ++ items)
      else ret result
  end.

Definition getInternalTransactionsByAddress (rfuel : nat) (address : string)
    (startblock endblock : number) : M (list JValue) :=
  tryCatch
    (internalTransactionsLoop (S (iterations 10000 startblock endblock)) rfuel
       address endblock startblock [])
    (fun error =>
       console_warn (MsgWarnInternalTxs address error) ;;
       ret []).

(** [for (let block = startblock; block <= endblock; block += 1000)]. *)
Fixpoint logsLoop (n : nat) (rfuel : nat) (address topic : string)
    (endblock block : number) (result : list JValue) : M (list JValue) :=
  match n with
  | O => diverge
  | S n' =>
      if numLe block endblock
      then
        let start := block in
        let end_ := if numLt (numAdd block 999) endblock then numAdd block 999 else endblock in
        console_log (MsgProcessing start end_) ;;
        data <- EtherscanAPI.getLogsByAddressTopic rfuel address topic start end_ ;;
        items <- lift (spread data) ;;
        logsLoop n' rfuel address topic endblock (numAdd block 1000) (result ++ items)
      else ret result
  end.

Definition getLogsByAddressTopic (rfuel : nat) (address topic : string)
    (startblock endblock : number) : M (list JValue) :=
  tryCatch
    (logsLoop (S (iterations 1000 startblock endblock)) rfuel address topic
       endblock startblock [])
    (fun error =>
       console_warn (MsgWarnLogs address error) ;;
       ret []).

End Service.
End EtherscanService.

(* ================================================================== *)
(** ** src/services/etherscan.service.ts, on doubles *)

(** The same two operations with the sums of the code: [block + 9999],
    [block + 999] and [block += step] are sums of doubles.  Beyond 2^53 a
    sum may be rounded, and from 2^64 (2^67 for the step 10000) on
    [block += step] leaves [block] as it is, so the loop has no bound of its
    own: [lfuel] bounds its passes as [rfuel] bounds the attempts. *)
Module OnDoubles.
Section Service.
Context {P : Platform}.

Fixpoint internalTransactionsLoop (n : nat) (rfuel : nat) (address : string)
    (endblock block : number) (result : list JValue) : M (list JValue) :=
  match n with
  | O => diverge
  | S n' =>
      if numLe block endblock
      then
        let start := block in
        let end_ :=
          if numLt (doubleAdd block 9999) endblock
          then doubleAdd block 9999 else endblock in
        console_log (MsgProcessing start end_) ;;
        data <- EtherscanAPI.getInternalTransactionsByAddress rfuel address start end_ ;;
        items <- lift (spread data) ;;
        internalTransactionsLoop n' rfuel address endblock (doubleAdd block 10000)
          (result ++ items)
      else ret result
  end.

Definition getInternalTransactionsByAddress (lfuel rfuel : nat) (address : string)
    (startblock endblock : number) : M (list JValue) :=
  tryCatch
    (internalTransactionsLoop lfuel rfuel address endblock startblock [])
    (fun error =>
       console_warn (MsgWarnInternalTxs address error) ;;
       ret []).

Fixpoint logsLoop (n : nat) (rfuel : nat) (address topic : string)
    (endblock block : number) (result : list JValue) : M (list JValue) :=
  match n with
  | O => diverge
  | S n' =>
      if numLe block endblock
      then
        let start := block in
        let end_ :=
          if numLt (doubleAdd block 999) endblock
          then doubleAdd block 999 else endblock in
        console_log (MsgProcessing start end_) ;;
        data <- EtherscanAPI.getLogsByAddressTopic rfuel address topic start end_ ;;
        items <- lift (spread data) ;;
        logsLoop n' rfuel address topic endblock (doubleAdd block 1000)
          (result ++ items)
      else ret result
  end.

Definition getLogsByAddressTopic (lfuel rfuel : nat) (address topic : string)
    (startblock endblock : number) : M (list JValue) :=
  tryCatch
    (logsLoop lfuel rfuel address topic endblock startblock [])
    (fun error =>
       console_warn (MsgWarnLogs address error) ;;
       ret []).

End Service.
End OnDoubles.

(* ================================================================== *)
(** ** src/get-logs.ts *)

Module GetLogs.
Section Main.
Context {P : Platform}.

(** [main], from the parsed arguments on: nothing here catches, so what
    [getLatestBlock] or the write throws ends the run. *)
Definition main (lfuel rfuel : nat) (address topic : string) (startBlock : number)
    : M unit :=
  endblock <- EtherscanAPI.getLatestBlock ;;
  console_log (MsgGettingLogs startBlock endblock) ;;
  logs <- OnDoubles.getLogsByAddressTopic lfuel rfuel address topic startBlock endblock ;;
  console_log (MsgFound (List.length logs)) ;;
  writeFileSync "./data/logs.json" logs.

End Main.
End GetLogs.

(* ================================================================== *)
(** ** Windows, observations of a trace, and a scripted remote *)

Module Windows.

(** The windows the loops of the service walk through: the loop's own
    arithmetic, without its effects.  [span] is the literal added for the
    window's end (9999, 999), [step] the literal added to [block]. *)
Fixpoint windowsFrom (n : nat) (span step endblock block : Z) : list (Z * Z) :=
  match n with
  | O => []
  | S n' =>
      if block <=? endblock
      then (block, if block + span <? endblock then block + span else endblock)
             :: windowsFrom n' span step endblock (block + step)
      else []
  end.

Definition windows (span step startblock endblock : Z) : list (Z * Z) :=
  windowsFrom (Z.to_nat ((endblock - startblock) / step + 1)) span step
    endblock startblock.

Definition internalTransactionWindows : Z -> Z -> list (Z * Z) := windows 9999 10000.
Definition logWindows : Z -> Z -> list (Z * Z) := windows 999 1000.

(** [ws] tiles the blocks from [s] to [e]: the first window starts at [s],
    each window is not empty and stays below [e], the next one starts right
    after it, and the last one ends at [e]. *)
Fixpoint tiles (s e : Z) (ws : list (Z * Z)) : Prop :=
  match ws with
  | [] => s = e + 1
  | (a, b) :: rest => a = s /\ a <= b /\ b <= e /\ tiles (b + 1) e rest
  end.

(** Block [b] lies in window [w]. *)
Definition inWindow (b : Z) (w : Z * Z) : Prop := fst w <= b <= snd w.

(** Each window ends before every later one starts. *)
Definition ascending (ws : list (Z * Z)) : Prop :=
  ForallOrdPairs (fun w1 w2 => snd w1 < fst w2) ws.



(** The ceiling of [a / b] for positive [b]. *)
Definition ceilDiv (a b : Z) : Z := (a + b - 1) / b.

(** [ws] is a partition of the blocks from [s] to [e] into windows of
    [windowSize] blocks: contiguous, in ascending order and so without
    overlap, covering exactly the range, ceil((e - s + 1) / windowSize) of
    them. *)
Definition partitions (windowSize s e : Z) (ws : list (Z * Z)) : Prop :=
  tiles s e ws
  /\ ascending ws
  /\ (forall b, s <= b <= e <-> exists w, In w ws /\ inWindow b w)
  /\ Z.of_nat (List.length ws) = ceilDiv (e - s + 1) windowSize.

End Windows.
Import Windows.

Section Processing.
Context {P : Platform}.

(** One pass per window of a list, in its order: the message, the call of
    the client, the append. *)
Fixpoint processWindows (call : number -> number -> M JValue)
    (ws : list (Z * Z)) (result : list JValue) : M (list JValue) :=
  match ws with
  | [] => ret result
  | (start, end_) :: rest =>
      console_log (MsgProcessing (Num start) (Num end_)) ;;
      data <- call (Num start) (Num end_) ;;
      items <- lift (spread data) ;;
      processWindows call rest (result ++ items)
  end.

(** Every window of [ws] is fetched in turn from state [st], window by
    window the client returns the array of [ls], and the run ends in
    [st']. *)
Inductive Fetched (call : number -> number -> M JValue)
    : list (Z * Z) -> State -> list (list JValue) -> State -> Prop :=
| Fetched_nil st : Fetched call [] st [] st
| Fetched_cons start end_ ws st st1 st2 items ls st' :
    console_log (MsgProcessing (Num start) (Num end_)) st = (Return tt, st1) ->
    call (Num start) (Num end_) st1 = (Return (JArray items), st2) ->
    Fetched call ws st2 ls st' ->
    Fetched call ((start, end_) :: ws) st (items :: ls) st'.

(** The remote answers [request] with NOTOK [n] times in a row, taking its
    state from [w] to [w']. *)
Inductive AnswersNOTOK (request : Request) : nat -> World -> World -> Prop :=
| AnswersNOTOK_O w : AnswersNOTOK request O w w
| AnswersNOTOK_S n w w1 w' data message :
    axios_get request w = (AxiosResolve data, w1) ->
    getProp data "status" = inr (JString "0") ->
    getProp data "message" = inr (JString message) ->
    prefix "NOTOK" message = true ->
    AnswersNOTOK request n w1 w' ->
    AnswersNOTOK request (S n) w w'.

End Processing.

(** How one response body is read by the two windowed operations of the
    client (the FetchOutcome of the specification): what the retry test and
    the two exits after it amount to, as a function of the body alone. *)
Inductive Classification : Type :=
| Success (result : JValue)
| Empty
| TransientFailure
| Fault (error : JSError).

Definition classify (data : JValue) : Classification :=
  match getProp data "status" with
  | inl error => Fault error
  | inr status =>
      if strictEqString status "0"
      then
        match getProp data "message" with
        | inl error => Fault error
        | inr message =>
            match slice0 message 5 with
            | inl error => Fault error
            | inr prefix =>
                if strictEqString prefix "NOTOK" then TransientFailure else Empty
            end
        end
      else if strictEqString status "1"
      then
        match getProp data "result" with
        | inl error => Fault error
        | inr result => Success result
        end
      else Empty
  end.

(** What a trace shows. *)
Definition windowsLogged (tr : list Event) : list (number * number) :=
  flat_map (fun ev =>
              match ev with
              | EvConsoleLog (MsgProcessing a b) => [(a, b)]
              | _ => []
              end) tr.

Definition requestsOf (tr : list Event) : list Request :=
  flat_map (fun ev =>
              match ev with
              | EvAxiosGet request => [request]
              | _ => []
              end) tr.

Definition asNumbers (ws : list (Z * Z)) : list (number * number) :=
  map (fun w => (Num (fst w), Num (snd w))) ws.

(** The events of [n] failed attempts at [request]. *)
Fixpoint retryEvents (request : Request) (n : nat) : list Event :=
  match n with
  | O => []
  | S n' =>
      [EvAxiosGet request; EvConsoleLog MsgWaitRetry; EvSleep 1000]
        ++ retryEvents request n'
  end.

(** A hexadecimal numeral, by its characters alone: after white space, a
    sign and a prefix 0x or 0X, the first character is a hexadecimal
    digit. *)
Definition isHexDigit (c : ascii) : bool :=
  match index 0 (String c "") "0123456789abcdefABCDEF" with
  | Some _ => true
  | None => false
  end.

Definition hexNumeral (s : string) : bool :=
  match stripHexPrefix (snd (stripSign (trimStart s))) with
  | String c _ => isHexDigit c
  | EmptyString => false
  end.

(** The response of the block-number call carries a decodable result: a
    string that is a hexadecimal numeral. *)
Definition decodableResult (answer : AxiosResult) : bool :=
  match answer with
  | AxiosResolve data =>
      match getProp data "result" with
      | inr (JString s) => hexNumeral s
      | _ => false
      end
  | AxiosReject _ => false
  end.

(** The error [getLatestBlock] throws from its catch:
    [new Error(`Error fetching latest block: ${error}`)]. *)
Definition wrapped (error : JSError) : JSError :=
  Error ("Error fetching latest block: " ^^ errorToString error).

(** The response carries a result the [if] of [getLatestBlock] accepts. *)
Definition truthyResult (answer : AxiosResult) : bool :=
  match answer with
  | AxiosResolve data =>
      match getProp data "result" with
      | inr result => truthy result
      | inl _ => false
      end
  | AxiosReject _ => false
  end.

(** The section 4.2 of the specification, in its words: the window size is
    a parameter of the operation. *)
Module Spec.

Fixpoint windowsFrom (n : nat) (windowSize rangeEnd cursor : Z) : list (Z * Z) :=
  match n with
  | O => []
  | S n' =>
      if cursor <=? rangeEnd
      then (cursor, Z.min (cursor + windowSize - 1) rangeEnd)
             :: windowsFrom n' windowSize rangeEnd (cursor + windowSize)
      else []
  end.

Definition windows (windowSize rangeStart rangeEnd : Z) : list (Z * Z) :=
  windowsFrom (Z.to_nat ((rangeEnd - rangeStart) / windowSize + 1)) windowSize
    rangeEnd rangeStart.


End Spec.

(** A remote that plays a script: the answers are given out in order,
    whatever is asked, and a network error once the script is over. *)
Module Scripted.

Definition networkError : JSError := mkError "AxiosError" "Network Error".

Definition platform : Platform := {|
  World := list AxiosResult;
  axios_get := fun _ w =>
    match w with
    | [] => (AxiosReject networkError, [])
    | answer :: rest => (answer, rest)
    end;
  fs_writeFileSync := fun _ _ w => (None, w);
  ETHERSCAN_API_KEY := "KEY"
|}.
#[local] Existing Instance platform.

(** The same remote, on a machine where the directory of the output file
    is missing: every write fails. *)
Definition noSuchDirectory : JSError :=
  Error "ENOENT: no such file or directory, open './data/logs.json'".

Definition platformWithoutData : Platform := {|
  World := list AxiosResult;
  axios_get := fun _ w =>
    match w with
    | [] => (AxiosReject networkError, [])
    | answer :: rest => (answer, rest)
    end;
  fs_writeFileSync := fun _ _ w => (Some noSuchDirectory, w);
  ETHERSCAN_API_KEY := "KEY"
|}.

Definition start (script : list AxiosResult) : State := mkState script [].

Definition body (status message : string) (result : JValue) : AxiosResult :=
  AxiosResolve
    (JObject [("status", JString status); ("message", JString message);
              ("result", result)]).

Definition notok : AxiosResult :=
  body "0" "NOTOK" (JString "Max rate limit reached").

Definition noRecords : AxiosResult :=
  body "0" "No records found" (JArray []).

Definition record (blockNumber : string) : JValue :=
  JObject [("blockNumber", JString blockNumber)].

Definition blockNumber (v : JValue) : number :=
  match getProp v "blockNumber" with
  | inr b => parseInt b 16
  | inl _ => NaN
  end.

(** Five logs of the blocks 1, 2, 3, 998 and 999, and five of the blocks
    2000, 2001, 2005, 2992 and 2999. *)
Definition firstLogs : list JValue :=
  map record ["0x1"; "0x2"; "0x3"; "0x3e6"; "0x3e7"].

Definition lastLogs : list JValue :=
  map record ["0x7d0"; "0x7d1"; "0x7d5"; "0xbb0"; "0xbb7"].


End Scripted.

(* ================================================================== *)
(** ** More observations of a trace *)

Definition sleepsOf (tr : list Event) : list Z :=
  flat_map (fun ev =>
              match ev with
              | EvSleep milliseconds => [milliseconds]
              | _ => []
              end) tr.

Definition writesOf (tr : list Event) : list (string * list JValue) :=
  flat_map (fun ev =>
              match ev with
              | EvWriteFile path json => [(path, json)]
              | _ => []
              end) tr.

(** The number of blocks of a window. *)
Definition blocksOf (w : Z * Z) : Z := snd w - fst w + 1.

(** The events one call of a windowed operation of the client may add:
    its own request, the retry message, the sleep of one second, the
    warning given by [warning]. *)
Definition clientEvent (request : Request) (warning : JSError -> ConsoleMessage)
    (ev : Event) : Prop :=
  ev = EvAxiosGet request
  \/ ev = EvConsoleLog MsgWaitRetry
  \/ ev = EvSleep 1000
  \/ exists error, ev = EvConsoleWarn (warning error).

(** The shape of what one call of the client adds to the trace [before]:
    [n] failed attempts, then, when it returns, its request once more and
    at most one warning; nothing but failed attempts while it is still
    retrying; and it throws nothing. *)
Definition clientShape (request : Request) (warning : JSError -> ConsoleMessage)
    (fuel : nat) (before : list Event) {A} (run : Outcome A * list Event) : Prop :=
  match fst run with
  | OutOfFuel => snd run = before ++ retryEvents request fuel
  | Return _ =>
      exists n tail,
        (n < fuel)%nat
        /\ snd run = before ++ retryEvents request n ++ EvAxiosGet request :: tail
        /\ (tail = [] \/ exists error, tail = [EvConsoleWarn (warning error)])
  | Throw _ => False
  end.


(* ================================================================== *)
(** ** parseInt on a few inputs *)

Example parseInt_0x10 : parseInt (JString "0x10") 16 = Num 16.
Proof. reflexivity. Qed.

Example parseInt_upper_prefix : parseInt (JString "  0X1f2e") 16 = Num 7982.
Proof. reflexivity. Qed.

Example parseInt_stops_at_first_non_digit : parseInt (JString "12g4") 16 = Num 18.
Proof. reflexivity. Qed.

Example parseInt_no_digit : parseInt (JString "zz") 16 = NaN.
Proof. reflexivity. Qed.

Example parseInt_prefix_only : parseInt (JString "0x") 16 = NaN.
Proof. reflexivity. Qed.

Example parseInt_decimal : parseInt (JString "-42px") 10 = Num (-42).
Proof. reflexivity. Qed.

(* ================================================================== *)
(** ** The arithmetic of the windows *)

Section WindowFacts.
Variables span step : Z.
Hypothesis step_pos : 0 < step.
Hypothesis span_step : span = step - 1.

Lemma passes_step (e s : Z) :
  s <= e -> (e - s) / step + 1 = ((e - (s + step)) / step + 1) + 1.
Proof.
  intros _.
  replace (e - s) with ((e - (s + step)) + 1 * step) by lia.
  rewrite Z.div_add by lia. lia.
Qed.

Lemma passes_nonneg (e s : Z) : s <= e + step -> 0 <= (e - s) / step + 1.
Proof.
  intros H.
  replace (e - s) with ((e - s + step) + (-1) * step) by lia.
  rewrite Z.div_add by lia.
  assert (0 <= (e - s + step) / step) by (apply Z.div_pos; lia). lia.
Qed.

Lemma passes_none (e s : Z) : e < s -> (e - s) / step + 1 <= 0.
Proof.
  intros H.
  assert ((e - s) / step < 0) by (apply Z.div_lt_upper_bound; lia). lia.
Qed.

Lemma windowsFrom_tiles (e : Z) (n : nat) :
  forall s, s <= e -> (Z.to_nat ((e - s) / step + 1) <= n)%nat ->
  tiles s e (windowsFrom n span step e s).
Proof.
  induction n as [|n IH]; intros s Hse Hn.
  - pose proof (passes_step e s Hse). pose proof (passes_nonneg e (s + step)).
    lia.
  - cbn [windowsFrom]. destruct (Z.leb_spec s e); [|lia].
    cbn [tiles]. destruct (Z.ltb_spec (s + span) e) as [Hlt|Hge].
    + repeat split; try lia.
      replace (s + span + 1) with (s + step) by lia.
      apply IH; [lia|].
      pose proof (passes_step e s Hse). pose proof (passes_nonneg e (s + step)).
      lia.
    + repeat split; try lia.
      destruct n as [|n']; cbn [windowsFrom tiles]; [reflexivity|].
      destruct (Z.leb_spec (s + step) e); [lia|reflexivity].
Qed.

Lemma windowsFrom_length (e : Z) (n : nat) :
  forall s, (Z.to_nat ((e - s) / step + 1) <= n)%nat ->
  List.length (windowsFrom n span step e s) = Z.to_nat ((e - s) / step + 1).
Proof.
  induction n as [|n IH]; intros s Hn.
  - cbn. lia.
  - cbn [windowsFrom]. destruct (Z.leb_spec s e) as [Hse|Hes].
    + cbn [List.length].
      pose proof (passes_step e s Hse). pose proof (passes_nonneg e (s + step)).
      rewrite IH by lia. lia.
    + pose proof (passes_none e s Hes). cbn. lia.
Qed.

Lemma windows_tiles (s e : Z) : s <= e -> tiles s e (windows span step s e).
Proof. intros H. apply windowsFrom_tiles; [exact H|lia]. Qed.

Lemma windows_length (s e : Z) :
  s <= e -> Z.of_nat (List.length (windows span step s e)) = ceilDiv (e - s + 1) step.
Proof.
  intros H. unfold windows. rewrite windowsFrom_length by lia.
  pose proof (passes_nonneg e s). unfold ceilDiv.
  replace (e - s + 1 + step - 1) with ((e - s) + 1 * step) by lia.
  rewrite Z.div_add by lia. lia.
Qed.

Lemma windows_empty (s e : Z) : e < s -> windows span step s e = [].
Proof.
  intros H. unfold windows. pose proof (passes_none e s H).
  replace (Z.to_nat ((e - s) / step + 1)) with O by lia. reflexivity.
Qed.

Lemma windows_cons (s e : Z) :
  s <= e ->
  windows span step s e
  = (s, if s + span <? e then s + span else e) :: windows span step (s + step) e.
Proof.
  intros H. unfold windows.
  pose proof (passes_step e s H). pose proof (passes_nonneg e (s + step)).
  replace (Z.to_nat ((e - s) / step + 1))
    with (S (Z.to_nat ((e - (s + step)) / step + 1))) by lia.
  cbn [windowsFrom]. destruct (Z.leb_spec s e); [reflexivity|lia].
Qed.

Lemma windows_single (s : Z) : windows span step s s = [(s, s)].
Proof.
  rewrite windows_cons by lia. rewrite windows_empty by lia.
  destruct (Z.ltb_spec (s + span) s); [lia|reflexivity].
Qed.

End WindowFacts.

Lemma ceilDiv_spec (a b : Z) :
  0 < b -> (ceilDiv a b - 1) * b < a <= ceilDiv a b * b.
Proof.
  intros Hb. unfold ceilDiv.
  pose proof (Z.div_mod (a + b - 1) b ltac:(lia)) as Hdm.
  pose proof (Z.mod_pos_bound (a + b - 1) b Hb) as Hmod.
  nia.
Qed.

Lemma tiles_lower (ws : list (Z * Z)) :
  forall s e, tiles s e ws -> Forall (fun w => s <= fst w) ws.
Proof.
  induction ws as [|[a b] ws IH]; intros s e H; constructor.
  - cbn in *. lia.
  - cbn in H. destruct H as (-> & Hab & Hbe & Hrest).
    apply IH in Hrest. eapply Forall_impl; [|exact Hrest].
    cbn. intros w Hw. lia.
Qed.

Lemma tiles_ascending (ws : list (Z * Z)) :
  forall s e, tiles s e ws -> ascending ws.
Proof.
  induction ws as [|[a b] ws IH]; intros s e H; constructor.
  - cbn in H. destruct H as (-> & Hab & Hbe & Hrest).
    apply tiles_lower in Hrest. eapply Forall_impl; [|exact Hrest].
    cbn. intros w Hw. lia.
  - cbn in H. destruct H as (_ & _ & _ & Hrest). exact (IH _ _ Hrest).
Qed.

Lemma tiles_bounds (ws : list (Z * Z)) :
  forall s e, tiles s e ws -> s <= e + 1.
Proof.
  induction ws as [|[a b] ws IH]; intros s e H; cbn in H; lia.
Qed.

Lemma tiles_cover (ws : list (Z * Z)) :
  forall s e, tiles s e ws ->
  forall b, s <= b <= e <-> exists w, In w ws /\ inWindow b w.
Proof.
  induction ws as [|[a c] ws IH]; intros s e H b.
  - cbn in H. split; [lia|]. intros (w & [] & _).
  - cbn in H. destruct H as (-> & Hac & Hce & Hrest).
    pose proof (tiles_bounds _ _ _ Hrest) as Hb.
    specialize (IH _ _ Hrest b). split.
    + intros Hsb. destruct (Z_le_gt_dec b c) as [Hle|Hgt].
      * exists (s, c). split; [left; reflexivity|unfold inWindow; cbn; lia].
      * destruct IH as [IH _]. destruct IH as (w & Hin & Hw); [lia|].
        exists w. split; [right; exact Hin|exact Hw].
    + intros (w & [<-|Hin] & Hw).
      * unfold inWindow in Hw; cbn in Hw. lia.
      * destruct IH as [_ IH]. specialize (IH (ex_intro _ w (conj Hin Hw))). lia.
Qed.



(* ================================================================== *)
(** ** One attempt of the client *)

Section ClientFacts.
Context {P : Platform}.

Lemma tryCatch_no_throw {A} (body : M A) (handler : JSError -> M A) (st : State) :
  (forall error st', isThrow (fst (handler error st')) = false) ->
  isThrow (fst (tryCatch body handler st)) = false.
Proof.
  intros Hh. unfold tryCatch.
  destruct (body st) as [[a|error|] st']; cbn; auto.
Qed.

Lemma internalTransactions_no_throw fuel address startblock endblock st :
  isThrow (fst (EtherscanAPI.getInternalTransactionsByAddress
                  fuel address startblock endblock st)) = false.
Proof.
  destruct fuel as [|fuel]; [reflexivity|].
  cbn [EtherscanAPI.getInternalTransactionsByAddress].
  apply tryCatch_no_throw. reflexivity.
Qed.

Lemma logs_no_throw fuel address topic startblock endblock st :
  isThrow (fst (EtherscanAPI.getLogsByAddressTopic
                  fuel address topic startblock endblock st)) = false.
Proof.
  destruct fuel as [|fuel]; [reflexivity|].
  cbn [EtherscanAPI.getLogsByAddressTopic].
  apply tryCatch_no_throw. reflexivity.
Qed.

(** The retry test and the exits after it, against [classify]. *)
Lemma transientFailure_classify (data : JValue) (st : State) :
  EtherscanAPI.transientFailure data st
  = match classify data with
    | Fault error => (Throw error, st)
    | TransientFailure => (Return true, st)
    | _ => (Return false, st)
    end.
Proof.
  unfold EtherscanAPI.transientFailure, classify, bind, lift, ret, throw.
  destruct data; cbn; try reflexivity.
  destruct (strictEqString (lookup "status" fields) "0").
  - cbn. destruct (slice0 (lookup "message" fields) 5) as [error|prefix]; [reflexivity|].
    cbn. destruct (strictEqString prefix "NOTOK"); reflexivity.
  - destruct (strictEqString (lookup "status" fields) "1"); reflexivity.
Qed.

Lemma strictEqString_0_1 (v : JValue) :
  strictEqString v "0" = true -> strictEqString v "1" = false.
Proof.
  destruct v; cbn; try discriminate.
  intros H. apply String.eqb_eq in H. subst. reflexivity.
Qed.

Lemma successOrEmpty_classify (data : JValue) (st : State) :
  match classify data with
  | Success result => EtherscanAPI.successOrEmpty data st = (Return result, st)
  | Empty => EtherscanAPI.successOrEmpty data st = (Return (JArray []), st)
  | _ => True
  end.
Proof.
  unfold EtherscanAPI.successOrEmpty, classify, bind, lift, ret, throw.
  destruct data; cbn; try reflexivity.
  destruct (strictEqString (lookup "status" fields) "0") eqn:H0.
  - rewrite (strictEqString_0_1 _ H0).
    destruct (slice0 (lookup "message" fields) 5) as [error|prefix]; [exact I|].
    destruct (strictEqString prefix "NOTOK"); [exact I|reflexivity].
  - destruct (strictEqString (lookup "status" fields) "1"); reflexivity.
Qed.

(** The cases of one attempt: the answer of the remote, then the class of
    its body; [no_throw] says the retried call throws nothing. *)
Ltac attempt_cases st request no_throw :=
  unfold tryCatch at 1, bind at 1, axios_get_await, requested;
  fold request;
  let w := fresh "w" in
  let data := fresh "data" in
  destruct (axios_get request (world st)) as [[?error|data] w]; cbn [fst snd];
  [ reflexivity
  | unfold bind at 1; rewrite transientFailure_classify;
    let Hse := fresh "Hse" in
    pose proof (successOrEmpty_classify data
                  {| world := w; trace := trace st ++ [EvAxiosGet request] |}) as Hse;
    destruct (classify data) as [?result| | |?error];
    [ rewrite Hse; reflexivity
    | rewrite Hse; reflexivity
    | unfold bind, console_log, sleep, emit, ret, logged; cbn;
      rewrite <- !app_assoc; cbn;
      match goal with
      | |- context [?call {| world := w; trace := ?tr |}] =>
          let Hnt := fresh "Hnt" in
          pose proof (no_throw {| world := w; trace := tr |}) as Hnt;
          destruct (call {| world := w; trace := tr |}) as [[?a|?error|] ?st'];
          cbn in *; congruence
      end
    | reflexivity ] ].

(** One attempt of [getInternalTransactionsByAddress], case by case. *)
Lemma internalTransactions_attempt fuel address startblock endblock st :
  let request := ReqTxListInternal address ETHERSCAN_API_KEY startblock endblock in
  let st1 := requested st request (snd (axios_get request (world st))) in
  let warned error :=
    (Return (JArray []),
     logged st1 [EvConsoleWarn (MsgWarnInternalTxs address error)]) in
  EtherscanAPI.getInternalTransactionsByAddress (S fuel) address startblock endblock st
  = match fst (axios_get request (world st)) with
    | AxiosReject error => warned error
    | AxiosResolve data =>
        match classify data with
        | Fault error => warned error
        | TransientFailure =>
            EtherscanAPI.getInternalTransactionsByAddress fuel address
              startblock endblock
              (logged st1 [EvConsoleLog MsgWaitRetry; EvSleep 1000])
        | Success result => (Return result, st1)
        | Empty => (Return (JArray []), st1)
        end
    end.
Proof.
  intros request st1 warned. subst warned st1.
  cbn [EtherscanAPI.getInternalTransactionsByAddress].
  attempt_cases st request
    (internalTransactions_no_throw fuel address startblock endblock).
Qed.

(** One attempt of [getLogsByAddressTopic], case by case. *)
Lemma logs_attempt fuel address topic startblock endblock st :
  let request := ReqGetLogs startblock endblock address topic ETHERSCAN_API_KEY in
  let st1 := requested st request (snd (axios_get request (world st))) in
  let warned error :=
    (Return (JArray []),
     logged st1 [EvConsoleWarn (MsgWarnLogs address error)]) in
  EtherscanAPI.getLogsByAddressTopic (S fuel) address topic startblock endblock st
  = match fst (axios_get request (world st)) with
    | AxiosReject error => warned error
    | AxiosResolve data =>
        match classify data with
        | Fault error => warned error
        | TransientFailure =>
            EtherscanAPI.getLogsByAddressTopic fuel address topic
              startblock endblock
              (logged st1 [EvConsoleLog MsgWaitRetry; EvSleep 1000])
        | Success result => (Return result, st1)
        | Empty => (Return (JArray []), st1)
        end
    end.
Proof.
  intros request st1 warned. subst warned st1.
  cbn [EtherscanAPI.getLogsByAddressTopic].
  attempt_cases st request (logs_no_throw fuel address topic startblock endblock).
Qed.

End ClientFacts.

(* ================================================================== *)
(** ** The loops of the service *)

Section ServiceFacts.
Context {P : Platform}.

Lemma bind_ext {A B} (m : M A) (k1 k2 : A -> M B) (st : State) :
  (forall a st', k1 a st' = k2 a st') -> bind m k1 st = bind m k2 st.
Proof.
  intros H. unfold bind. destruct (m st) as [[a|error|] st']; auto.
Qed.

Lemma tryCatch_ext {A} (body1 body2 : M A) (handler : JSError -> M A) (st : State) :
  body1 st = body2 st -> tryCatch body1 handler st = tryCatch body2 handler st.
Proof. intros H. unfold tryCatch. rewrite H. reflexivity. Qed.

Lemma window_end (span e s : Z) :
  (if numLt (numAdd (Num s) span) (Num e) then numAdd (Num s) span else Num e)
  = Num (if s + span <? e then s + span else e).
Proof. cbn. destruct (s + span <? e); reflexivity. Qed.

(** The loop over internal transactions walks the windows of
    [windowsFrom], given the passes it needs. *)
Lemma internalTransactionsLoop_process rfuel address e (n : nat) :
  forall s result st,
  (Z.to_nat ((e - s) / 10000 + 1) <= n)%nat ->
  EtherscanService.internalTransactionsLoop (S n) rfuel address (Num e) (Num s) result st
  = processWindows (EtherscanAPI.getInternalTransactionsByAddress rfuel address)
      (windowsFrom n 9999 10000 e s) result st.
Proof.
  induction n as [|n IH]; intros s result st Hn.
  - cbn [EtherscanService.internalTransactionsLoop windowsFrom processWindows numLe].
    destruct (Z.leb_spec s e) as [Hse|_]; [|reflexivity].
    pose proof (passes_step 10000 ltac:(lia) e s Hse).
    pose proof (passes_nonneg 10000 ltac:(lia) e (s + 10000)). lia.
  - change (EtherscanService.internalTransactionsLoop (S (S n)) rfuel address
              (Num e) (Num s) result)
      with (if numLe (Num s) (Num e)
            then
              console_log (MsgProcessing (Num s)
                (if numLt (numAdd (Num s) 9999) (Num e) then numAdd (Num s) 9999 else Num e)) ;;
              data <- EtherscanAPI.getInternalTransactionsByAddress rfuel address (Num s)
                        (if numLt (numAdd (Num s) 9999) (Num e) then numAdd (Num s) 9999 else Num e) ;;
              items <- lift (spread data) ;;
              EtherscanService.internalTransactionsLoop (S n) rfuel address (Num e)
                (numAdd (Num s) 10000) (result ++ items)
            else ret result).
    cbn [windowsFrom numLe]. destruct (Z.leb_spec s e) as [Hse|_]; [|reflexivity].
    cbn [processWindows]. rewrite window_end.
    apply bind_ext; intros _ st1. apply bind_ext; intros data st2.
    apply bind_ext; intros items st3. cbn [numAdd]. apply IH.
    pose proof (passes_step 10000 ltac:(lia) e s Hse).
    pose proof (passes_nonneg 10000 ltac:(lia) e (s + 10000)). lia.
Qed.

Lemma logsLoop_process rfuel address topic e (n : nat) :
  forall s result st,
  (Z.to_nat ((e - s) / 1000 + 1) <= n)%nat ->
  EtherscanService.logsLoop (S n) rfuel address topic (Num e) (Num s) result st
  = processWindows (EtherscanAPI.getLogsByAddressTopic rfuel address topic)
      (windowsFrom n 999 1000 e s) result st.
Proof.
  induction n as [|n IH]; intros s result st Hn.
  - cbn [EtherscanService.logsLoop windowsFrom processWindows numLe].
    destruct (Z.leb_spec s e) as [Hse|_]; [|reflexivity].
    pose proof (passes_step 1000 ltac:(lia) e s Hse).
    pose proof (passes_nonneg 1000 ltac:(lia) e (s + 1000)). lia.
  - change (EtherscanService.logsLoop (S (S n)) rfuel address topic
              (Num e) (Num s) result)
      with (if numLe (Num s) (Num e)
            then
              console_log (MsgProcessing (Num s)
                (if numLt (numAdd (Num s) 999) (Num e) then numAdd (Num s) 999 else Num e)) ;;
              data <- EtherscanAPI.getLogsByAddressTopic rfuel address topic (Num s)
                        (if numLt (numAdd (Num s) 999) (Num e) then numAdd (Num s) 999 else Num e) ;;
              items <- lift (spread data) ;;
              EtherscanService.logsLoop (S n) rfuel address topic (Num e)
                (numAdd (Num s) 1000) (result ++ items)
            else ret result).
    cbn [windowsFrom numLe]. destruct (Z.leb_spec s e) as [Hse|_]; [|reflexivity].
    cbn [processWindows]. rewrite window_end.
    apply bind_ext; intros _ st1. apply bind_ext; intros data st2.
    apply bind_ext; intros items st3. cbn [numAdd]. apply IH.
    pose proof (passes_step 1000 ltac:(lia) e s Hse).
    pose proof (passes_nonneg 1000 ltac:(lia) e (s + 1000)). lia.
Qed.

(** The two operations of the service as a walk over their windows. *)
Lemma internalTransactions_process rfuel address s e st :
  EtherscanService.getInternalTransactionsByAddress rfuel address (Num s) (Num e) st
  = tryCatch
      (processWindows (EtherscanAPI.getInternalTransactionsByAddress rfuel address)
         (internalTransactionWindows s e) [])
      (fun error => console_warn (MsgWarnInternalTxs address error) ;; ret []) st.
Proof.
  unfold EtherscanService.getInternalTransactionsByAddress.
  apply tryCatch_ext. apply internalTransactionsLoop_process. cbn. lia.
Qed.

Lemma logs_process rfuel address topic s e st :
  EtherscanService.getLogsByAddressTopic rfuel address topic (Num s) (Num e) st
  = tryCatch
      (processWindows (EtherscanAPI.getLogsByAddressTopic rfuel address topic)
         (logWindows s e) [])
      (fun error => console_warn (MsgWarnLogs address error) ;; ret []) st.
Proof.
  unfold EtherscanService.getLogsByAddressTopic.
  apply tryCatch_ext. apply logsLoop_process. cbn. lia.
Qed.

Lemma processWindows_fetched call ws st ls st' :
  Fetched call ws st ls st' ->
  forall result,
  processWindows call ws result st = (Return (result ++ List.concat ls), st').
Proof.
  induction 1 as [st|start end_ ws st st1 st2 items ls st' Hlog Hcall _ IH];
    intros result.
  - cbn. rewrite app_nil_r. reflexivity.
  - cbn [processWindows List.concat]. unfold bind at 1. rewrite Hlog.
    unfold bind at 1. rewrite Hcall. unfold bind at 1. cbn [spread lift ret].
    rewrite IH, app_assoc. reflexivity.
Qed.

Lemma tryCatch_return {A} (body : M A) handler st (a : A) st' :
  body st = (Return a, st') -> tryCatch body handler st = (Return a, st').
Proof. intros H. unfold tryCatch. rewrite H. reflexivity. Qed.

End ServiceFacts.

(* ================================================================== *)
(** ** What the trace shows of a run *)

Section TraceFacts.
Context {P : Platform}.

Lemma windowsLogged_app (tr1 tr2 : list Event) :
  windowsLogged (tr1 ++ tr2) = windowsLogged tr1 ++ windowsLogged tr2.
Proof. apply flat_map_app. Qed.

(** The client prints no window. *)
Lemma internalTransactions_windowsLogged fuel address startblock endblock :
  forall st,
  windowsLogged (trace (snd (EtherscanAPI.getInternalTransactionsByAddress
                               fuel address startblock endblock st)))
  = windowsLogged (trace st).
Proof.
  induction fuel as [|fuel IH]; intros st; [reflexivity|].
  rewrite internalTransactions_attempt.
  destruct (axios_get _ (world st)) as [[error|data] w]; cbn [fst snd].
  - cbn. rewrite !windowsLogged_app. cbn. rewrite !app_nil_r. reflexivity.
  - destruct (classify data); try rewrite IH; cbn;
      rewrite !windowsLogged_app; cbn; rewrite !app_nil_r; reflexivity.
Qed.

Lemma logs_windowsLogged fuel address topic startblock endblock :
  forall st,
  windowsLogged (trace (snd (EtherscanAPI.getLogsByAddressTopic
                               fuel address topic startblock endblock st)))
  = windowsLogged (trace st).
Proof.
  induction fuel as [|fuel IH]; intros st; [reflexivity|].
  rewrite logs_attempt.
  destruct (axios_get _ (world st)) as [[error|data] w]; cbn [fst snd].
  - cbn. rewrite !windowsLogged_app. cbn. rewrite !app_nil_r. reflexivity.
  - destruct (classify data); try rewrite IH; cbn;
      rewrite !windowsLogged_app; cbn; rewrite !app_nil_r; reflexivity.
Qed.

Section Walk.
Variable call : number -> number -> M JValue.
Hypothesis call_windowsLogged :
  forall a b st, windowsLogged (trace (snd (call a b st))) = windowsLogged (trace st).

(** Whatever happens, the windows printed are the first ones of the
    list, in its order. *)
Lemma processWindows_logged (ws : list (Z * Z)) :
  forall result st,
  exists k,
    windowsLogged (trace (snd (processWindows call ws result st)))
    = windowsLogged (trace st) ++ asNumbers (firstn k ws).
Proof.
  induction ws as [|[a b] ws IH]; intros result st.
  - exists O. cbn. rewrite app_nil_r. reflexivity.
  - cbn [processWindows]. unfold bind at 1, console_log, emit. cbn [world trace].
    set (st1 := {| world := world st;
                   trace := trace st ++ [EvConsoleLog (MsgProcessing (Num a) (Num b))] |}).
    assert (windowsLogged (trace st1)
            = windowsLogged (trace st) ++ asNumbers (firstn 1 ((a, b) :: ws))) as H1.
    { subst st1. cbn [trace]. rewrite windowsLogged_app. reflexivity. }
    pose proof (call_windowsLogged (Num a) (Num b) st1) as Hc.
    unfold bind at 1.
    destruct (call (Num a) (Num b) st1) as [[data|error|] st2]; cbn [snd] in Hc.
    + unfold bind at 1.
      destruct (spread data) as [error|items]; cbn [lift throw ret].
      * exists 1%nat. cbn [snd]. rewrite Hc. exact H1.
      * destruct (IH (result ++ items) st2) as [k Hk]. exists (S k).
        rewrite Hk, Hc, H1. cbn. rewrite <- app_assoc. reflexivity.
    + exists 1%nat. cbn [snd]. rewrite Hc. exact H1.
    + exists 1%nat. cbn [snd]. rewrite Hc. exact H1.
Qed.

(** The first window is printed in any case. *)
Lemma processWindows_logged_first (w : Z * Z) (ws : list (Z * Z)) :
  forall result st,
  exists k,
    windowsLogged (trace (snd (processWindows call (w :: ws) result st)))
    = windowsLogged (trace st) ++ asNumbers (w :: firstn k ws).
Proof.
  destruct w as [a b]. intros result st.
  cbn [processWindows]. unfold bind at 1, console_log, emit. cbn [world trace].
  set (st1 := {| world := world st;
                 trace := trace st ++ [EvConsoleLog (MsgProcessing (Num a) (Num b))] |}).
  assert (windowsLogged (trace st1)
          = windowsLogged (trace st) ++ asNumbers [(a, b)]) as H1.
  { subst st1. cbn [trace]. rewrite windowsLogged_app. reflexivity. }
  pose proof (call_windowsLogged (Num a) (Num b) st1) as Hc.
  unfold bind at 1.
  destruct (call (Num a) (Num b) st1) as [[data|error|] st2]; cbn [snd] in Hc.
  - unfold bind at 1.
    destruct (spread data) as [error|items]; cbn [lift throw ret].
    + exists O. cbn [snd firstn]. rewrite Hc. exact H1.
    + destruct (processWindows_logged ws (result ++ items) st2) as [k Hk]. exists k.
      rewrite Hk, Hc, H1. cbn. rewrite <- app_assoc. reflexivity.
  - exists O. cbn [snd firstn]. rewrite Hc. exact H1.
  - exists O. cbn [snd firstn]. rewrite Hc. exact H1.
Qed.

(** When every window is fetched, every window was printed. *)
Lemma fetched_logged ws st ls st' :
  Fetched call ws st ls st' ->
  windowsLogged (trace st') = windowsLogged (trace st) ++ asNumbers ws.
Proof.
  induction 1 as [st|start end_ ws st st1 st2 items ls st' Hlog Hcall _ IH].
  - cbn. rewrite app_nil_r. reflexivity.
  - rewrite IH. pose proof (call_windowsLogged (Num start) (Num end_) st1) as Hc.
    rewrite Hcall in Hc. cbn [snd] in Hc. rewrite Hc.
    unfold console_log, emit in Hlog. injection Hlog as <-. cbn [trace].
    rewrite windowsLogged_app, <- app_assoc. reflexivity.
Qed.

Lemma tryCatch_warn_logged (body : M (list JValue)) (message : JSError -> ConsoleMessage) st :
  windowsLogged
    (trace (snd (tryCatch body (fun error => console_warn (message error) ;; ret []) st)))
  = windowsLogged (trace (snd (body st))).
Proof.
  unfold tryCatch. destruct (body st) as [[a|error|] st']; try reflexivity.
  cbn. rewrite windowsLogged_app. cbn. apply app_nil_r.
Qed.

End Walk.
End TraceFacts.

(* ================================================================== *)
(** ** Doubles: where the sums of the code are exact *)

Lemma roundInt_safe (z : Z) : Z.abs z <= 2 ^ 53 -> roundInt z = Num z.
Proof.
  intros H. unfold roundInt.
  destruct (Z.ltb_spec (Z.abs z) (2 ^ 53)) as [_|Hge]; [reflexivity|].
  assert (z = 2 ^ 53 \/ z = - 2 ^ 53) as [-> | ->] by lia; reflexivity.
Qed.

Lemma doubleAdd_exact (z k : Z) :
  - 2 ^ 53 <= z + k <= 2 ^ 53 -> doubleAdd (Num z) k = numAdd (Num z) k.
Proof. intros H. cbn. apply roundInt_safe. lia. Qed.

Lemma windowsFrom_enough (span step e : Z) (n : nat) :
  0 < step ->
  forall s,
  (Z.to_nat ((e - s) / step + 1) <= n)%nat ->
  windowsFrom n span step e s = windows span step s e.
Proof.
  intros Hstep. unfold windows. induction n as [|n IH]; intros s Hn.
  - replace (Z.to_nat ((e - s) / step + 1)) with O by lia. reflexivity.
  - cbn [windowsFrom]. destruct (Z.leb_spec s e) as [Hse|Hes].
    + pose proof (passes_step step Hstep e s Hse).
      pose proof (passes_nonneg step Hstep e (s + step)).
      replace (Z.to_nat ((e - s) / step + 1))
        with (S (Z.to_nat ((e - (s + step)) / step + 1))) by lia.
      cbn [windowsFrom]. destruct (Z.leb_spec s e); [|lia].
      f_equal. apply IH. lia.
    + pose proof (passes_none step Hstep e s Hes).
      replace (Z.to_nat ((e - s) / step + 1)) with O by lia. reflexivity.
Qed.

Lemma windows_count (span step s e : Z) :
  0 < step ->
  List.length (windows span step s e) = Z.to_nat ((e - s) / step + 1).
Proof.
  intros Hstep. unfold windows.
  apply (windowsFrom_length span step Hstep). lia.
Qed.

Section OnDoublesFacts.
Context {P : Platform}.

Lemma window_end_double (span e s : Z) :
  - 2 ^ 53 <= s -> s + span <= 2 ^ 53 -> 0 <= span ->
  (if numLt (doubleAdd (Num s) span) (Num e) then doubleAdd (Num s) span else Num e)
  = Num (if s + span <? e then s + span else e).
Proof.
  intros Hlo Hhi Hspan. rewrite doubleAdd_exact by lia. cbn.
  destruct (s + span <? e); reflexivity.
Qed.

(** Within 2^53 the loops on doubles walk the windows of [windowsFrom],
    as the loops on exact integers do. *)
Lemma onDoubles_internalTransactionsLoop_process rfuel address e (n : nat) :
  e + 10000 <= 2 ^ 53 ->
  forall s result st,
  - 2 ^ 53 <= s ->
  (Z.to_nat ((e - s) / 10000 + 1) <= n)%nat ->
  OnDoubles.internalTransactionsLoop (S n) rfuel address (Num e) (Num s) result st
  = processWindows (EtherscanAPI.getInternalTransactionsByAddress rfuel address)
      (windowsFrom n 9999 10000 e s) result st.
Proof.
  intros He. induction n as [|n IH]; intros s result st Hs Hn.
  - cbn [OnDoubles.internalTransactionsLoop windowsFrom processWindows numLe].
    destruct (Z.leb_spec s e) as [Hse|_]; [|reflexivity].
    pose proof (passes_step 10000 ltac:(lia) e s Hse).
    pose proof (passes_nonneg 10000 ltac:(lia) e (s + 10000)). lia.
  - change (OnDoubles.internalTransactionsLoop (S (S n)) rfuel address
              (Num e) (Num s) result)
      with (if numLe (Num s) (Num e)
            then
              console_log (MsgProcessing (Num s)
                (if numLt (doubleAdd (Num s) 9999) (Num e)
                 then doubleAdd (Num s) 9999 else Num e)) ;;
              data <- EtherscanAPI.getInternalTransactionsByAddress rfuel address (Num s)
                        (if numLt (doubleAdd (Num s) 9999) (Num e)
                         then doubleAdd (Num s) 9999 else Num e) ;;
              items <- lift (spread data) ;;
              OnDoubles.internalTransactionsLoop (S n) rfuel address (Num e)
                (doubleAdd (Num s) 10000) (result ++ items)
            else ret result).
    cbn [windowsFrom numLe]. destruct (Z.leb_spec s e) as [Hse|_]; [|reflexivity].
    cbn [processWindows]. rewrite window_end_double by lia.
    rewrite (doubleAdd_exact s 10000) by lia.
    apply bind_ext; intros _ st1. apply bind_ext; intros data st2.
    apply bind_ext; intros items st3. cbn [numAdd]. apply IH; [lia|].
    pose proof (passes_step 10000 ltac:(lia) e s Hse).
    pose proof (passes_nonneg 10000 ltac:(lia) e (s + 10000)). lia.
Qed.

Lemma onDoubles_logsLoop_process rfuel address topic e (n : nat) :
  e + 1000 <= 2 ^ 53 ->
  forall s result st,
  - 2 ^ 53 <= s ->
  (Z.to_nat ((e - s) / 1000 + 1) <= n)%nat ->
  OnDoubles.logsLoop (S n) rfuel address topic (Num e) (Num s) result st
  = processWindows (EtherscanAPI.getLogsByAddressTopic rfuel address topic)
      (windowsFrom n 999 1000 e s) result st.
Proof.
  intros He. induction n as [|n IH]; intros s result st Hs Hn.
  - cbn [OnDoubles.logsLoop windowsFrom processWindows numLe].
    destruct (Z.leb_spec s e) as [Hse|_]; [|reflexivity].
    pose proof (passes_step 1000 ltac:(lia) e s Hse).
    pose proof (passes_nonneg 1000 ltac:(lia) e (s + 1000)). lia.
  - change (OnDoubles.logsLoop (S (S n)) rfuel address topic (Num e) (Num s) result)
      with (if numLe (Num s) (Num e)
            then
              console_log (MsgProcessing (Num s)
                (if numLt (doubleAdd (Num s) 999) (Num e)
                 then doubleAdd (Num s) 999 else Num e)) ;;
              data <- EtherscanAPI.getLogsByAddressTopic rfuel address topic (Num s)
                        (if numLt (doubleAdd (Num s) 999) (Num e)
                         then doubleAdd (Num s) 999 else Num e) ;;
              items <- lift (spread data) ;;
              OnDoubles.logsLoop (S n) rfuel address topic (Num e)
                (doubleAdd (Num s) 1000) (result ++ items)
            else ret result).
    cbn [windowsFrom numLe]. destruct (Z.leb_spec s e) as [Hse|_]; [|reflexivity].
    cbn [processWindows]. rewrite window_end_double by lia.
    rewrite (doubleAdd_exact s 1000) by lia.
    apply bind_ext; intros _ st1. apply bind_ext; intros data st2.
    apply bind_ext; intros items st3. cbn [numAdd]. apply IH; [lia|].
    pose proof (passes_step 1000 ltac:(lia) e s Hse).
    pose proof (passes_nonneg 1000 ltac:(lia) e (s + 1000)). lia.
Qed.

(** Within 2^53, and with passes for every window and the last test, the
    operations on doubles are the walk over the windows: what the
    operations on exact integers are ([internalTransactions_process],
    [logs_process]). *)
Lemma onDoubles_internalTransactions_process lfuel rfuel address s e st :
  - 2 ^ 53 <= s -> e + 10000 <= 2 ^ 53 ->
  (List.length (internalTransactionWindows s e) < lfuel)%nat ->
  OnDoubles.getInternalTransactionsByAddress lfuel rfuel address (Num s) (Num e) st
  = tryCatch
      (processWindows (EtherscanAPI.getInternalTransactionsByAddress rfuel address)
         (internalTransactionWindows s e) [])
      (fun error => console_warn (MsgWarnInternalTxs address error) ;; ret []) st.
Proof.
  intros Hs He Hfuel. unfold OnDoubles.getInternalTransactionsByAddress.
  unfold internalTransactionWindows in *. rewrite windows_count in Hfuel by lia.
  destruct lfuel as [|n]; [lia|].
  apply tryCatch_ext.
  rewrite onDoubles_internalTransactionsLoop_process by lia.
  rewrite windowsFrom_enough by lia. reflexivity.
Qed.

Lemma onDoubles_logs_process lfuel rfuel address topic s e st :
  - 2 ^ 53 <= s -> e + 1000 <= 2 ^ 53 ->
  (List.length (logWindows s e) < lfuel)%nat ->
  OnDoubles.getLogsByAddressTopic lfuel rfuel address topic (Num s) (Num e) st
  = tryCatch
      (processWindows (EtherscanAPI.getLogsByAddressTopic rfuel address topic)
         (logWindows s e) [])
      (fun error => console_warn (MsgWarnLogs address error) ;; ret []) st.
Proof.
  intros Hs He Hfuel. unfold OnDoubles.getLogsByAddressTopic.
  unfold logWindows in *. rewrite windows_count in Hfuel by lia.
  destruct lfuel as [|n]; [lia|].
  apply tryCatch_ext.
  rewrite onDoubles_logsLoop_process by lia.
  rewrite windowsFrom_enough by lia. reflexivity.
Qed.

(** So within 2^53 the two embeddings of the service are one. *)
Lemma onDoubles_internalTransactions_exact lfuel rfuel address s e st :
  - 2 ^ 53 <= s -> e + 10000 <= 2 ^ 53 ->
  (List.length (internalTransactionWindows s e) < lfuel)%nat ->
  OnDoubles.getInternalTransactionsByAddress lfuel rfuel address (Num s) (Num e) st
  = EtherscanService.getInternalTransactionsByAddress rfuel address (Num s) (Num e) st.
Proof.
  intros Hs He Hfuel.
  rewrite onDoubles_internalTransactions_process by assumption.
  rewrite internalTransactions_process. reflexivity.
Qed.

Lemma onDoubles_logs_exact lfuel rfuel address topic s e st :
  - 2 ^ 53 <= s -> e + 1000 <= 2 ^ 53 ->
  (List.length (logWindows s e) < lfuel)%nat ->
  OnDoubles.getLogsByAddressTopic lfuel rfuel address topic (Num s) (Num e) st
  = EtherscanService.getLogsByAddressTopic rfuel address topic (Num s) (Num e) st.
Proof.
  intros Hs He Hfuel.
  rewrite onDoubles_logs_process by assumption.
  rewrite logs_process. reflexivity.
Qed.

End OnDoublesFacts.

(* ================================================================== *)
(** ** The windowed fetch *)

Lemma windows_partitions (span step s e : Z) :
  0 < step -> span = step - 1 -> s <= e ->
  partitions step s e (windows span step s e).
Proof.
  intros Hstep Hspan Hse.
  pose proof (windows_tiles span step Hstep Hspan s e Hse) as Ht.
  unfold partitions. split; [|split; [|split]].
  - exact Ht.
  - exact (tiles_ascending _ _ _ Ht).
  - exact (tiles_cover _ _ _ Ht).
  - apply windows_length; assumption.
Qed.

Section WindowedFetch.
Context {P : Platform}.

(** C1, as the code has it.  For every range with 0 <= start <= end and
    end + 10000 <= 2^53, where the sums of the code are exact, the windows
    of each operation of the service partition the range: they are
    contiguous, ascending and without overlap, they cover exactly the
    blocks from start to end, and there are
    ceil((end - start + 1) / windowSize) of them, with windowSize 10000 for
    internal transactions and 1000 for logs.  The operation, given passes
    for them, is the walk over these windows in their order inside its
    try/catch; whatever the remote does, the windows it printed are the
    first ones of the list in order; and when every window is fetched, all
    of them were processed and the result is the concatenation of what the
    client returned. *)
Theorem windowed_fetch_partitions (s e : Z) :
  0 <= s -> s <= e -> e + 10000 <= 2 ^ 53 ->
  (partitions 10000 s e (internalTransactionWindows s e)
   /\ forall lfuel rfuel address st,
        (List.length (internalTransactionWindows s e) < lfuel)%nat ->
        let call := EtherscanAPI.getInternalTransactionsByAddress rfuel address in
        let run :=
          OnDoubles.getInternalTransactionsByAddress lfuel rfuel address
            (Num s) (Num e) st in
        run = tryCatch (processWindows call (internalTransactionWindows s e) [])
                (fun error => console_warn (MsgWarnInternalTxs address error) ;; ret []) st
        /\ (exists k,
              windowsLogged (trace (snd run))
              = windowsLogged (trace st)
                  ++ asNumbers (firstn k (internalTransactionWindows s e)))
        /\ (forall ls st',
              Fetched call (internalTransactionWindows s e) st ls st' ->
              run = (Return (List.concat ls), st')
              /\ windowsLogged (trace st')
                 = windowsLogged (trace st) ++ asNumbers (internalTransactionWindows s e)))
  /\
  (partitions 1000 s e (logWindows s e)
   /\ forall lfuel rfuel address topic st,
        (List.length (logWindows s e) < lfuel)%nat ->
        let call := EtherscanAPI.getLogsByAddressTopic rfuel address topic in
        let run :=
          OnDoubles.getLogsByAddressTopic lfuel rfuel address topic (Num s) (Num e) st in
        run = tryCatch (processWindows call (logWindows s e) [])
                (fun error => console_warn (MsgWarnLogs address error) ;; ret []) st
        /\ (exists k,
              windowsLogged (trace (snd run))
              = windowsLogged (trace st) ++ asNumbers (firstn k (logWindows s e)))
        /\ (forall ls st',
              Fetched call (logWindows s e) st ls st' ->
              run = (Return (List.concat ls), st')
              /\ windowsLogged (trace st')
                 = windowsLogged (trace st) ++ asNumbers (logWindows s e))).
Proof.
  intros Hs Hse He. split; (split; [apply windows_partitions; lia|]).
  - intros lfuel rfuel address st Hfuel call run. subst run.
    rewrite onDoubles_internalTransactions_process by lia. fold call.
    assert (forall a b st0, windowsLogged (trace (snd (call a b st0)))
                            = windowsLogged (trace st0)) as Hcall
      by (intros; apply internalTransactions_windowsLogged).
    split; [reflexivity|]. split.
    + rewrite tryCatch_warn_logged. apply processWindows_logged. exact Hcall.
    + intros ls st' Hf. split.
      * apply tryCatch_return. apply (processWindows_fetched _ _ _ _ _ Hf).
      * apply (fetched_logged call Hcall _ _ _ _ Hf).
  - intros lfuel rfuel address topic st Hfuel call run. subst run.
    rewrite onDoubles_logs_process by lia. fold call.
    assert (forall a b st0, windowsLogged (trace (snd (call a b st0)))
                            = windowsLogged (trace st0)) as Hcall
      by (intros; apply logs_windowsLogged).
    split; [reflexivity|]. split.
    + rewrite tryCatch_warn_logged. apply processWindows_logged. exact Hcall.
    + intros ls st' Hf. split.
      * apply tryCatch_return. apply (processWindows_fetched _ _ _ _ _ Hf).
      * apply (fetched_logged call Hcall _ _ _ _ Hf).
Qed.

(** C7, as the code has it.  For a single-block range whose block is a
    block number within 2^53 - 10000, the only window is [start, start],
    and the operation, given two passes, is, inside its try/catch: the
    message of that window, one call of the client for it, the append, the
    return. *)
Theorem single_block_one_window (s : Z) :
  0 <= s -> s + 10000 <= 2 ^ 53 ->
  (internalTransactionWindows s s = [(s, s)]
   /\ forall lfuel rfuel address st,
        (1 < lfuel)%nat ->
        OnDoubles.getInternalTransactionsByAddress lfuel rfuel address (Num s) (Num s) st
        = tryCatch
            (console_log (MsgProcessing (Num s) (Num s)) ;;
             data <- EtherscanAPI.getInternalTransactionsByAddress rfuel address
                       (Num s) (Num s) ;;
             items <- lift (spread data) ;;
             ret ([] ++ items))
            (fun error => console_warn (MsgWarnInternalTxs address error) ;; ret []) st)
  /\
  (logWindows s s = [(s, s)]
   /\ forall lfuel rfuel address topic st,
        (1 < lfuel)%nat ->
        OnDoubles.getLogsByAddressTopic lfuel rfuel address topic (Num s) (Num s) st
        = tryCatch
            (console_log (MsgProcessing (Num s) (Num s)) ;;
             data <- EtherscanAPI.getLogsByAddressTopic rfuel address topic
                       (Num s) (Num s) ;;
             items <- lift (spread data) ;;
             ret ([] ++ items))
            (fun error => console_warn (MsgWarnLogs address error) ;; ret []) st).
Proof.
  intros Hs He.
  assert (internalTransactionWindows s s = [(s, s)]) as Hi
    by (apply windows_single; lia).
  assert (logWindows s s = [(s, s)]) as Hl by (apply windows_single; lia).
  split; (split; [assumption|]).
  - intros lfuel rfuel address st Hfuel.
    rewrite onDoubles_internalTransactions_process by (rewrite ?Hi; cbn; lia).
    rewrite Hi. reflexivity.
  - intros lfuel rfuel address topic st Hfuel.
    rewrite onDoubles_logs_process by (rewrite ?Hl; cbn; lia).
    rewrite Hl. reflexivity.
Qed.

(** C9.  For a range with start > end the operation returns the empty
    array and leaves the state as it was: the remote was not asked, nothing
    was printed. *)
Theorem reversed_range_empty (s e : Z) :
  e < s ->
  forall rfuel address topic st,
    EtherscanService.getInternalTransactionsByAddress rfuel address (Num s) (Num e) st
    = (Return [], st)
    /\ EtherscanService.getLogsByAddressTopic rfuel address topic (Num s) (Num e) st
       = (Return [], st).
Proof.
  intros Hes rfuel address topic st. split.
  - rewrite internalTransactions_process.
    unfold internalTransactionWindows. rewrite windows_empty by lia. reflexivity.
  - rewrite logs_process.
    unfold logWindows. rewrite windows_empty by lia. reflexivity.
Qed.

End WindowedFetch.

Lemma windowed_fetch_partitions_witness :
  partitions 10000 5 25004 (internalTransactionWindows 5 25004)
  /\ partitions 1000 0 2999 (logWindows 0 2999)
  /\ windowsLogged
       (trace (snd (OnDoubles.getLogsByAddressTopic 4 1 "0xabc" "0xddf2"
                      (Num 0) (Num 2999)
                      (Scripted.start
                         [Scripted.noRecords; Scripted.noRecords; Scripted.noRecords]))))
     = [(Num 0, Num 999); (Num 1000, Num 1999); (Num 2000, Num 2999)].
Proof.
  split; [|split].
  - exact (proj1 (proj1 (windowed_fetch_partitions (P := Scripted.platform)
                           5 25004 ltac:(lia) ltac:(lia) ltac:(lia)))).
  - exact (proj1 (proj2 (windowed_fetch_partitions (P := Scripted.platform)
                           0 2999 ltac:(lia) ltac:(lia) ltac:(lia)))).
  - reflexivity.
Defined.

(** C1 as the specification words it does not hold.  Beyond 2^53 the
    windows overlap: for the range [2^53, 2^53 + 1500] the sum
    2^53 + 999 is rounded to 2^53 + 1000, the first window ends on the
    block the second starts with, and has 1001 blocks.  And a run does not
    always go through all its windows: for [0, 2999], when the second
    answer is a success without a result, two of the three windows are
    processed. *)
Lemma windowed_fetch_overlap_and_stop :
  windowsLogged
    (trace (snd (OnDoubles.getLogsByAddressTopic 3 1 "0xabc" "0xddf2"
                   (Num (2 ^ 53)) (Num (2 ^ 53 + 1500))
                   (Scripted.start [Scripted.noRecords; Scripted.noRecords]))))
  = [(Num (2 ^ 53), Num (2 ^ 53 + 1000)); (Num (2 ^ 53 + 1000), Num (2 ^ 53 + 1500))]
  /\ windowsLogged
       (trace (snd (OnDoubles.getLogsByAddressTopic 4 1 "0xabc" "0xddf2"
                      (Num 0) (Num 2999)
                      (Scripted.start
                         [Scripted.body "1" "OK" (JArray Scripted.firstLogs);
                          AxiosResolve (JObject [("status", JString "1")]);
                          Scripted.body "1" "OK" (JArray Scripted.lastLogs)]))))
     = [(Num 0, Num 999); (Num 1000, Num 1999)]
  /\ ceilDiv (2999 - 0 + 1) 1000 = 3.
Proof. split; [|split]; vm_compute; reflexivity. Qed.

Lemma reversed_range_empty_witness :
  EtherscanService.getLogsByAddressTopic 3 "0xabc" "0xddf2" (Num 2000) (Num 1999)
    (Scripted.start [Scripted.noRecords])
  = (Return [], Scripted.start [Scripted.noRecords]).
Proof.
  exact (proj2 (reversed_range_empty (P := Scripted.platform) 2000 1999 ltac:(lia)
                  3%nat "0xabc" "0xddf2" (Scripted.start [Scripted.noRecords]))).
Defined.

(* ================================================================== *)
(** ** The client: retry, faults, success *)

Lemma classify_notok (data : JValue) (message : string) :
  getProp data "status" = inr (JString "0") ->
  getProp data "message" = inr (JString message) ->
  prefix "NOTOK" message = true ->
  classify data = TransientFailure.
Proof.
  intros Hs Hm Hp. unfold classify. rewrite Hs, Hm. cbn.
  apply prefix_correct in Hp. cbn [String.length] in Hp. rewrite Hp. reflexivity.
Qed.

Lemma classify_success (data result : JValue) :
  getProp data "status" = inr (JString "1") ->
  getProp data "result" = inr result ->
  classify data = Success result.
Proof. intros Hs Hr. unfold classify. rewrite Hs, Hr. reflexivity. Qed.

Lemma classify_fault_status (data : JValue) (error : JSError) :
  getProp data "status" = inl error -> classify data = Fault error.
Proof. intros Hs. unfold classify. rewrite Hs. reflexivity. Qed.

Lemma classify_fault_message (data message : JValue) (error : JSError) :
  getProp data "status" = inr (JString "0") ->
  getProp data "message" = inr message ->
  slice0 message 5 = inl error ->
  classify data = Fault error.
Proof. intros Hs Hm He. unfold classify. rewrite Hs, Hm, He. reflexivity. Qed.

Section Client.
Context {P : Platform}.

Lemma retryEvents_snoc (tr : list Event) (request : Request) (n : nat) :
  ((tr ++ [EvAxiosGet request]) ++ [EvConsoleLog MsgWaitRetry; EvSleep 1000])
    ++ retryEvents request n
  = tr ++ retryEvents request (S n).
Proof. cbn [retryEvents]. rewrite <- !app_assoc. reflexivity. Qed.

Lemma internalTransactions_retries address startblock endblock n w w' :
  AnswersNOTOK (ReqTxListInternal address ETHERSCAN_API_KEY startblock endblock) n w w' ->
  forall fuel tr,
  EtherscanAPI.getInternalTransactionsByAddress (n + fuel) address startblock endblock
    (mkState w tr)
  = EtherscanAPI.getInternalTransactionsByAddress fuel address startblock endblock
      (mkState w'
         (tr ++ retryEvents
                  (ReqTxListInternal address ETHERSCAN_API_KEY startblock endblock) n)).
Proof.
  induction 1 as [w|n w w1 w' data message Hget Hs Hm Hp _ IH]; intros fuel tr.
  - cbn. rewrite app_nil_r. reflexivity.
  - change (S n + fuel)%nat with (S (n + fuel)).
    rewrite internalTransactions_attempt. cbn [world]. rewrite Hget. cbn [fst snd].
    rewrite (classify_notok data message Hs Hm Hp).
    unfold logged, requested. cbn [world trace].
    rewrite IH, retryEvents_snoc. reflexivity.
Qed.

Lemma logs_retries address topic startblock endblock n w w' :
  AnswersNOTOK (ReqGetLogs startblock endblock address topic ETHERSCAN_API_KEY) n w w' ->
  forall fuel tr,
  EtherscanAPI.getLogsByAddressTopic (n + fuel) address topic startblock endblock
    (mkState w tr)
  = EtherscanAPI.getLogsByAddressTopic fuel address topic startblock endblock
      (mkState w'
         (tr ++ retryEvents
                  (ReqGetLogs startblock endblock address topic ETHERSCAN_API_KEY) n)).
Proof.
  induction 1 as [w|n w w1 w' data message Hget Hs Hm Hp _ IH]; intros fuel tr.
  - cbn. rewrite app_nil_r. reflexivity.
  - change (S n + fuel)%nat with (S (n + fuel)).
    rewrite logs_attempt. cbn [world]. rewrite Hget. cbn [fst snd].
    rewrite (classify_notok data message Hs Hm Hp).
    unfold logged, requested. cbn [world trace].
    rewrite IH, retryEvents_snoc. reflexivity.
Qed.

(** C2.  When the remote answers the request of a windowed operation with
    status "0" and a message that begins with NOTOK, [n] times in a row for
    any [n], the client has by then sent the same request [n] times, each
    followed by the retry message and a sleep of 1000 ms, and goes on with
    the same arguments: it is out of fuel if it had [n] attempts (it never
    gives up by itself), and when the next answer has status "1" it
    returns the result of that answer, after one more identical request. *)
Theorem notok_retries (n : nat) (address topic : string) (startblock endblock : number)
    (w w' : World) :
  (let request := ReqTxListInternal address ETHERSCAN_API_KEY startblock endblock in
   let run fuel tr :=
     EtherscanAPI.getInternalTransactionsByAddress fuel address startblock endblock
       (mkState w tr) in
   AnswersNOTOK request n w w' ->
   forall tr,
     (forall fuel,
        run (n + fuel)%nat tr
        = EtherscanAPI.getInternalTransactionsByAddress fuel address startblock endblock
            (mkState w' (tr ++ retryEvents request n)))
     /\ run n tr = (OutOfFuel, mkState w' (tr ++ retryEvents request n))
     /\ (forall data w'' result fuel,
           axios_get request w' = (AxiosResolve data, w'') ->
           getProp data "status" = inr (JString "1") ->
           getProp data "result" = inr result ->
           run (n + S fuel)%nat tr
           = (Return result,
              mkState w'' (tr ++ retryEvents request n ++ [EvAxiosGet request]))))
  /\
  (let request := ReqGetLogs startblock endblock address topic ETHERSCAN_API_KEY in
   let run fuel tr :=
     EtherscanAPI.getLogsByAddressTopic fuel address topic startblock endblock
       (mkState w tr) in
   AnswersNOTOK request n w w' ->
   forall tr,
     (forall fuel,
        run (n + fuel)%nat tr
        = EtherscanAPI.getLogsByAddressTopic fuel address topic startblock endblock
            (mkState w' (tr ++ retryEvents request n)))
     /\ run n tr = (OutOfFuel, mkState w' (tr ++ retryEvents request n))
     /\ (forall data w'' result fuel,
           axios_get request w' = (AxiosResolve data, w'') ->
           getProp data "status" = inr (JString "1") ->
           getProp data "result" = inr result ->
           run (n + S fuel)%nat tr
           = (Return result,
              mkState w'' (tr ++ retryEvents request n ++ [EvAxiosGet request])))).
Proof.
  split; intros request run Hn tr; subst run; cbn beta.
  - split; [|split].
    + intros fuel. apply internalTransactions_retries. exact Hn.
    + rewrite <- (Nat.add_0_r n) at 1.
      rewrite (internalTransactions_retries _ _ _ _ _ _ Hn). reflexivity.
    + intros data w'' result fuel Hget Hs Hr.
      rewrite (internalTransactions_retries _ _ _ _ _ _ Hn).
      rewrite internalTransactions_attempt. cbn [world]. fold request.
      rewrite Hget. cbn [fst snd]. rewrite (classify_success _ _ Hs Hr).
      unfold requested. cbn [trace]. rewrite app_assoc. reflexivity.
  - split; [|split].
    + intros fuel. apply logs_retries. exact Hn.
    + rewrite <- (Nat.add_0_r n) at 1.
      rewrite (logs_retries _ _ _ _ _ _ _ Hn). reflexivity.
    + intros data w'' result fuel Hget Hs Hr.
      rewrite (logs_retries _ _ _ _ _ _ _ Hn).
      rewrite logs_attempt. cbn [world]. fold request.
      rewrite Hget. cbn [fst snd]. rewrite (classify_success _ _ Hs Hr).
      unfold requested. cbn [trace]. rewrite app_assoc. reflexivity.
Qed.

End Client.

Section ClientFaults.
Context {P : Platform}.

(** C10.  A response whose status is "1" makes the client return its
    [result] as it is, after that one request and nothing else: no retry
    message, no sleep, whatever the message of the response is. *)
Theorem status_1_returns_result (fuel : nat) (address topic : string)
    (startblock endblock : number) (st : State) (data result : JValue) (w' : World) :
  getProp data "status" = inr (JString "1") ->
  getProp data "result" = inr result ->
  (let request := ReqTxListInternal address ETHERSCAN_API_KEY startblock endblock in
   axios_get request (world st) = (AxiosResolve data, w') ->
   EtherscanAPI.getInternalTransactionsByAddress (S fuel) address startblock endblock st
   = (Return result, requested st request w'))
  /\
  (let request := ReqGetLogs startblock endblock address topic ETHERSCAN_API_KEY in
   axios_get request (world st) = (AxiosResolve data, w') ->
   EtherscanAPI.getLogsByAddressTopic (S fuel) address topic startblock endblock st
   = (Return result, requested st request w')).
Proof.
  intros Hs Hr. split; intros request Hget.
  - rewrite internalTransactions_attempt. fold request. rewrite Hget. cbn [fst snd].
    rewrite (classify_success _ _ Hs Hr). reflexivity.
  - rewrite logs_attempt. fold request. rewrite Hget. cbn [fst snd].
    rewrite (classify_success _ _ Hs Hr). reflexivity.
Qed.

(** C8.  The two windowed operations of the client throw nothing,
    whatever the fuel, the arguments and the remote: a run returns or is
    still retrying.  Whenever reading the response throws (the body is
    undefined or null, or the status is "0" and the message is missing or
    has no [slice]), the catch prints a warning and the empty array is
    returned. *)
Theorem client_never_throws (fuel : nat) (address topic : string)
    (startblock endblock : number) (st : State) :
  (let request := ReqTxListInternal address ETHERSCAN_API_KEY startblock endblock in
   isThrow (fst (EtherscanAPI.getInternalTransactionsByAddress
                   fuel address startblock endblock st)) = false
   /\ forall data w' error,
        axios_get request (world st) = (AxiosResolve data, w') ->
        classify data = Fault error ->
        EtherscanAPI.getInternalTransactionsByAddress (S fuel) address startblock endblock st
        = (Return (JArray []),
           logged (requested st request w')
             [EvConsoleWarn (MsgWarnInternalTxs address error)]))
  /\
  (let request := ReqGetLogs startblock endblock address topic ETHERSCAN_API_KEY in
   isThrow (fst (EtherscanAPI.getLogsByAddressTopic
                   fuel address topic startblock endblock st)) = false
   /\ forall data w' error,
        axios_get request (world st) = (AxiosResolve data, w') ->
        classify data = Fault error ->
        EtherscanAPI.getLogsByAddressTopic (S fuel) address topic startblock endblock st
        = (Return (JArray []),
           logged (requested st request w') [EvConsoleWarn (MsgWarnLogs address error)]))
  /\
  (forall data error,
     getProp data "status" = inl error -> classify data = Fault error)
  /\
  (forall data message error,
     getProp data "status" = inr (JString "0") ->
     getProp data "message" = inr message ->
     slice0 message 5 = inl error ->
     classify data = Fault error)
  /\
  (forall message,
     match message with
     | JString _ | JArray _ => isThrow (match slice0 message 5 with
                                        | inl error => Throw error
                                        | inr v => Return v
                                        end) = false
     | _ => exists error, slice0 message 5 = inl error
     end).
Proof.
  split; [|split; [|split; [|split]]].
  - cbn zeta. split; [apply internalTransactions_no_throw|].
    intros data w' error Hget Hc.
    rewrite internalTransactions_attempt. rewrite Hget. cbn [fst snd].
    rewrite Hc. reflexivity.
  - cbn zeta. split; [apply logs_no_throw|].
    intros data w' error Hget Hc.
    rewrite logs_attempt. rewrite Hget. cbn [fst snd].
    rewrite Hc. reflexivity.
  - exact classify_fault_status.
  - exact classify_fault_message.
  - intros [| | | | | |]; cbn; eauto.
Qed.

(** C5, as the code has it.  When the request of a windowed operation is
    rejected by the transport, or the body that comes back is undefined or
    null, the client catches the error, prints a warning and returns the
    empty array: it throws nothing to the service.  The service, whose first
    window met the fault, goes on exactly as if it had been asked for the
    range that starts at the next window (for block numbers within 2^53,
    and given passes for the windows).  A body that comes back as text,
    not decoded, throws nothing and gives the empty array as well, but
    nothing is caught and no warning is printed. *)
Theorem transport_fault_absorbed (fuel : nat) (address topic : string) (st : State) :
  (forall startblock endblock,
     let request := ReqTxListInternal address ETHERSCAN_API_KEY startblock endblock in
     let run :=
       EtherscanAPI.getInternalTransactionsByAddress (S fuel) address startblock endblock st in
     (forall error w',
        axios_get request (world st) = (AxiosReject error, w') ->
        run = (Return (JArray []),
               logged (requested st request w')
                 [EvConsoleWarn (MsgWarnInternalTxs address error)]))
     /\ (forall data w' error,
           axios_get request (world st) = (AxiosResolve data, w') ->
           getProp data "status" = inl error ->
           run = (Return (JArray []),
                  logged (requested st request w')
                    [EvConsoleWarn (MsgWarnInternalTxs address error)])))
  /\
  (forall startblock endblock,
     let request := ReqGetLogs startblock endblock address topic ETHERSCAN_API_KEY in
     let run :=
       EtherscanAPI.getLogsByAddressTopic (S fuel) address topic startblock endblock st in
     (forall error w',
        axios_get request (world st) = (AxiosReject error, w') ->
        run = (Return (JArray []),
               logged (requested st request w') [EvConsoleWarn (MsgWarnLogs address error)]))
     /\ (forall data w' error,
           axios_get request (world st) = (AxiosResolve data, w') ->
           getProp data "status" = inl error ->
           run = (Return (JArray []),
                  logged (requested st request w')
                    [EvConsoleWarn (MsgWarnLogs address error)])))
  /\
  (forall lfuel s e error w',
     0 <= s -> s <= e -> e + 10000 <= 2 ^ 53 ->
     (List.length (internalTransactionWindows s e) < lfuel)%nat ->
     let end_ := Num (if s + 9999 <? e then s + 9999 else e) in
     let request := ReqTxListInternal address ETHERSCAN_API_KEY (Num s) end_ in
     axios_get request (world st) = (AxiosReject error, w') ->
     OnDoubles.getInternalTransactionsByAddress lfuel (S fuel) address (Num s) (Num e) st
     = OnDoubles.getInternalTransactionsByAddress lfuel (S fuel) address
         (Num (s + 10000)) (Num e)
         (logged (requested (logged st [EvConsoleLog (MsgProcessing (Num s) end_)])
                    request w')
            [EvConsoleWarn (MsgWarnInternalTxs address error)]))
  /\
  (forall lfuel s e error w',
     0 <= s -> s <= e -> e + 1000 <= 2 ^ 53 ->
     (List.length (logWindows s e) < lfuel)%nat ->
     let end_ := Num (if s + 999 <? e then s + 999 else e) in
     let request := ReqGetLogs (Num s) end_ address topic ETHERSCAN_API_KEY in
     axios_get request (world st) = (AxiosReject error, w') ->
     OnDoubles.getLogsByAddressTopic lfuel (S fuel) address topic (Num s) (Num e) st
     = OnDoubles.getLogsByAddressTopic lfuel (S fuel) address topic
         (Num (s + 1000)) (Num e)
         (logged (requested (logged st [EvConsoleLog (MsgProcessing (Num s) end_)])
                    request w')
            [EvConsoleWarn (MsgWarnLogs address error)]))
  /\
  (forall startblock endblock text w',
     (let request := ReqTxListInternal address ETHERSCAN_API_KEY startblock endblock in
      axios_get request (world st) = (AxiosResolve (JString text), w') ->
      EtherscanAPI.getInternalTransactionsByAddress (S fuel) address startblock endblock st
      = (Return (JArray []), requested st request w'))
     /\
     (let request := ReqGetLogs startblock endblock address topic ETHERSCAN_API_KEY in
      axios_get request (world st) = (AxiosResolve (JString text), w') ->
      EtherscanAPI.getLogsByAddressTopic (S fuel) address topic startblock endblock st
      = (Return (JArray []), requested st request w'))).
Proof.
  split; [|split; [|split; [|split]]];
    [| | | |
     intros startblock endblock text w'; split; intros request Hget;
     [rewrite internalTransactions_attempt|rewrite logs_attempt];
     fold request; rewrite Hget; reflexivity].
  - intros startblock endblock request run. subst run. split.
    + intros error w' Hget. rewrite internalTransactions_attempt. fold request.
      rewrite Hget. reflexivity.
    + intros data w' error Hget Hs. rewrite internalTransactions_attempt. fold request.
      rewrite Hget. cbn [fst snd]. rewrite (classify_fault_status _ _ Hs). reflexivity.
  - intros startblock endblock request run. subst run. split.
    + intros error w' Hget. rewrite logs_attempt. fold request.
      rewrite Hget. reflexivity.
    + intros data w' error Hget Hs. rewrite logs_attempt. fold request.
      rewrite Hget. cbn [fst snd]. rewrite (classify_fault_status _ _ Hs). reflexivity.
  - intros lfuel s e error w' Hs Hse He Hfuel end_ request Hget.
    unfold internalTransactionWindows in Hfuel.
    rewrite (windows_cons 9999 10000 ltac:(lia) s e Hse) in Hfuel. cbn [List.length] in Hfuel.
    rewrite !onDoubles_internalTransactions_process
      by (unfold internalTransactionWindows; rewrite ?windows_cons by lia;
          cbn [List.length]; lia).
    unfold internalTransactionWindows.
    rewrite (windows_cons 9999 10000 ltac:(lia) s e Hse).
    unfold tryCatch.
    match goal with
    | |- match ?a with _ => _ end = match ?b with _ => _ end =>
        assert (a = b) as ->; [|reflexivity]
    end.
    cbn [processWindows].
    unfold bind at 1, console_log, emit. fold end_.
    unfold bind at 1. rewrite internalTransactions_attempt. cbn [world].
    fold request. rewrite Hget. reflexivity.
  - intros lfuel s e error w' Hs Hse He Hfuel end_ request Hget.
    unfold logWindows in Hfuel.
    rewrite (windows_cons 999 1000 ltac:(lia) s e Hse) in Hfuel. cbn [List.length] in Hfuel.
    rewrite !onDoubles_logs_process
      by (unfold logWindows; rewrite ?windows_cons by lia; cbn [List.length]; lia).
    unfold logWindows.
    rewrite (windows_cons 999 1000 ltac:(lia) s e Hse).
    unfold tryCatch.
    match goal with
    | |- match ?a with _ => _ end = match ?b with _ => _ end =>
        assert (a = b) as ->; [|reflexivity]
    end.
    cbn [processWindows].
    unfold bind at 1, console_log, emit. fold end_.
    unfold bind at 1. rewrite logs_attempt. cbn [world].
    fold request. rewrite Hget. reflexivity.
Qed.

End ClientFaults.

(* ================================================================== *)
(** ** The latest block *)

Section LatestBlock.
Context {P : Platform}.

Lemma getLatestBlock_cases (st : State) :
  let request := ReqBlockNumber ETHERSCAN_API_KEY in
  let st1 := requested st request (snd (axios_get request (world st))) in
  EtherscanAPI.getLatestBlock st
  = match fst (axios_get request (world st)) with
    | AxiosReject error => (Throw (wrapped error), st1)
    | AxiosResolve data =>
        match getProp data "result" with
        | inl error => (Throw (wrapped error), st1)
        | inr result =>
            if truthy result
            then (Return (parseInt result 16), st1)
            else (Throw (wrapped (Error "Failed to get latest block number")), st1)
        end
    end.
Proof.
  intros request st1. subst st1.
  unfold EtherscanAPI.getLatestBlock, tryCatch, bind at 1, axios_get_await, requested.
  fold request.
  destruct (axios_get request (world st)) as [[error|data] w]; cbn [fst snd].
  - reflexivity.
  - unfold bind, lift. destruct (getProp data "result") as [error|result].
    + reflexivity.
    + cbn [ret]. destruct (truthy result); reflexivity.
Qed.

Lemma isHexDigit_digitValue (c : ascii) :
  isHexDigit c = match digitValue c with
                 | Some d => d <? 16
                 | None => false
                 end.
Proof. destruct c as [[] [] [] [] [] [] [] []]; reflexivity. Qed.

Lemma parseDigits_started (R : Z) (s : string) :
  forall a, exists z, parseDigits R s (Some a) = Some z.
Proof.
  induction s as [|c s IH]; intros a; cbn [parseDigits]; [eauto|].
  destruct (digitValue c) as [d|]; [|eauto].
  destruct (d <? R); eauto.
Qed.

Lemma roundInt_not_NaN (z : Z) : roundInt z <> NaN.
Proof.
  unfold roundInt. destruct (Z.abs z <? 2 ^ 53); [discriminate|].
  match goal with |- (if ?c then _ else _) <> _ => destruct c end;
    [destruct (z <? 0)|]; discriminate.
Qed.

(** [parseInt] in radix 16 gives NaN exactly for the strings that are not
    hexadecimal numerals. *)
Lemma parseInt_hexNumeral (s : string) :
  if hexNumeral s
  then parseInt (JString s) 16 <> NaN
  else parseInt (JString s) 16 = NaN.
Proof.
  unfold hexNumeral, parseInt. cbn [toString].
  destruct (stripSign (trimStart s)) as [sign input]. cbn [snd].
  change (16 =? 0) with false. change ((16 <? 2) || (36 <? 16))%bool with false.
  change (16 =? 16) with true. cbv iota.
  destruct (stripHexPrefix input) as [|c rest]; [reflexivity|].
  rewrite isHexDigit_digitValue. cbn [parseDigits].
  destruct (digitValue c) as [d|]; [|reflexivity].
  destruct (d <? 16); [|reflexivity].
  destruct (parseDigits_started 16 rest (16 * 0 + d)) as [z ->].
  cbn [digitsToNumber]. apply roundInt_not_NaN.
Qed.

(** C3, as the code has it.  [getLatestBlock] sends one request, with no
    retry and no sleep.  It throws exactly when the request is rejected, the
    body is undefined or null, or the result is falsy (absent, null, false,
    0, the empty string); a truthy result is returned through
    [parseInt(result, 16)], so "0x10" gives 16.  What it throws ends [main]
    there, before anything else is done.  For a result that is a string:
    the empty string is an error; a string that is a hexadecimal numeral
    (white space, a sign, 0x, then a hexadecimal digit) gives a number that
    is not NaN; any other string gives NaN, so never 0. *)
Theorem latest_block_decoding (st : State) :
  let request := ReqBlockNumber ETHERSCAN_API_KEY in
  let answer := fst (axios_get request (world st)) in
  let run := EtherscanAPI.getLatestBlock st in
  snd run = requested st request (snd (axios_get request (world st)))
  /\ isThrow (fst run) = negb (truthyResult answer)
  /\ (forall data,
        answer = AxiosResolve data ->
        getProp data "result" = inr (JString "0x10") ->
        fst run = Return (Num 16))
  /\ (forall data result,
        answer = AxiosResolve data ->
        getProp data "result" = inr result ->
        truthy result = true ->
        fst run = Return (parseInt result 16))
  /\ (forall data s,
        answer = AxiosResolve data ->
        getProp data "result" = inr (JString s) ->
        match fst run with
        | Return NaN => hexNumeral s = false /\ s <> ""
        | Return _ => hexNumeral s = true
        | Throw _ => s = ""
        | OutOfFuel => False
        end)
  /\ (forall error lfuel rfuel address topic startBlock,
        fst run = Throw error ->
        GetLogs.main lfuel rfuel address topic startBlock st = (Throw error, snd run)).
Proof.
  intros request answer run. subst run answer.
  rewrite getLatestBlock_cases. fold request.
  destruct (axios_get request (world st)) as [[error|data] w] eqn:Hget; cbn [fst snd].
  - repeat split; try discriminate.
    intros error' lfuel rfuel address topic startBlock [= <-].
    unfold GetLogs.main, bind at 1. rewrite getLatestBlock_cases. fold request.
    rewrite Hget. reflexivity.
  - split; [|split; [|split; [|split; [|split]]]].
    + destruct (getProp data "result") as [error|result]; [reflexivity|].
      destruct (truthy result); reflexivity.
    + cbn. destruct (getProp data "result") as [error|result]; [reflexivity|].
      destruct (truthy result); reflexivity.
    + intros data' [= <-] Hr. rewrite Hr. reflexivity.
    + intros data' result [= <-] Hr Ht. rewrite Hr, Ht. reflexivity.
    + intros data' s [= <-] Hr. rewrite Hr.
      destruct s as [|c s]; [reflexivity|].
      cbn [truthy String.eqb negb fst].
      pose proof (parseInt_hexNumeral (String c s)) as Hp.
      destruct (hexNumeral (String c s));
        destruct (parseInt (JString (String c s)) 16);
        try reflexivity; try congruence.
      split; [reflexivity|discriminate].
    + intros error lfuel rfuel address topic startBlock Hrun.
      unfold GetLogs.main, bind at 1. rewrite getLatestBlock_cases. fold request.
      rewrite Hget. cbn [fst snd].
      destruct (getProp data "result") as [error'|result].
      * cbn in Hrun. injection Hrun as <-. reflexivity.
      * destruct (truthy result); cbn in Hrun; [discriminate|].
        injection Hrun as <-. reflexivity.
Qed.

End LatestBlock.

(** C3 as the specification words it does not hold: the remote answers the block-number
    request with the result "zz"; the response carries no decodable result,
    and [getLatestBlock] raises nothing: it returns NaN. *)
Lemma latest_block_undecodable_not_raised :
  let st := Scripted.start [Scripted.body "1" "OK" (JString "zz")] in
  decodableResult (fst (axios_get (ReqBlockNumber "KEY") (world st))) = false
  /\ EtherscanAPI.getLatestBlock st
     = (Return NaN, logged (Scripted.start []) [EvAxiosGet (ReqBlockNumber "KEY")]).
Proof. split; reflexivity. Qed.

Lemma latest_block_decoding_witness :
  let st := Scripted.start [Scripted.body "1" "OK" (JString "0x10")] in
  fst (EtherscanAPI.getLatestBlock st) = Return (Num 16).
Proof.
  intros st.
  exact (proj1 (proj2 (proj2 (latest_block_decoding st))) _ eq_refl eq_refl).
Defined.

(* ================================================================== *)
(** ** The accumulated result *)

Section Ordering.
Context {A : Type} (key : A -> Z).




End Ordering.


Section Accumulation.
Context {P : Platform}.



End Accumulation.

(* ================================================================== *)
(** ** Runs against a scripted remote *)

(** Two NOTOK answers, then a success: the third attempt returns its
    result, after two sleeps of 1000 ms and three identical requests. *)
Lemma notok_retries_witness :
  let request := ReqGetLogs (Num 0) (Num 999) "0xabc" "0xddf2" "KEY" in
  EtherscanAPI.getLogsByAddressTopic 3 "0xabc" "0xddf2" (Num 0) (Num 999)
    (Scripted.start
       [Scripted.notok; Scripted.notok;
        Scripted.body "1" "OK" (JArray Scripted.firstLogs)])
  = (Return (JArray Scripted.firstLogs),
     logged (Scripted.start [])
       [EvAxiosGet request; EvConsoleLog MsgWaitRetry; EvSleep 1000;
        EvAxiosGet request; EvConsoleLog MsgWaitRetry; EvSleep 1000;
        EvAxiosGet request]).
Proof.
  intros request.
  assert (AnswersNOTOK (P := Scripted.platform) request 2
            [Scripted.notok; Scripted.notok;
             Scripted.body "1" "OK" (JArray Scripted.firstLogs)]
            [Scripted.body "1" "OK" (JArray Scripted.firstLogs)]) as Hn.
  { eapply AnswersNOTOK_S; [reflexivity|reflexivity|reflexivity|reflexivity|].
    eapply AnswersNOTOK_S; [reflexivity|reflexivity|reflexivity|reflexivity|].
    apply AnswersNOTOK_O. }
  exact (proj2 (proj2 (proj2 (notok_retries (P := Scripted.platform) 2 "0xabc" "0xddf2"
                                (Num 0) (Num 999) _ _) Hn []))
           (JObject [("status", JString "1"); ("message", JString "OK");
                     ("result", JArray Scripted.firstLogs)])
           [] (JArray Scripted.firstLogs) O eq_refl eq_refl eq_refl).
Defined.

(** A success whose message begins with NOTOK is returned at once. *)
Lemma status_1_returns_result_witness :
  let request := ReqTxListInternal "0xabc" "KEY" (Num 0) (Num 9999) in
  EtherscanAPI.getInternalTransactionsByAddress 1 "0xabc" (Num 0) (Num 9999)
    (Scripted.start [Scripted.body "1" "NOTOK" (JArray Scripted.firstLogs)])
  = (Return (JArray Scripted.firstLogs),
     logged (Scripted.start []) [EvAxiosGet request]).
Proof.
  intros request.
  exact (proj1 (status_1_returns_result (P := Scripted.platform) O "0xabc" "0xddf2"
                  (Num 0) (Num 9999)
                  (Scripted.start [Scripted.body "1" "NOTOK" (JArray Scripted.firstLogs)])
                  (JObject [("status", JString "1"); ("message", JString "NOTOK");
                            ("result", JArray Scripted.firstLogs)])
                  (JArray Scripted.firstLogs) [] eq_refl eq_refl) eq_refl).
Defined.

(** A status "0" without a message: reading [slice] of undefined throws,
    the catch warns, the empty array comes back. *)
Lemma client_never_throws_witness :
  let request := ReqGetLogs (Num 0) (Num 999) "0xabc" "0xddf2" "KEY" in
  EtherscanAPI.getLogsByAddressTopic 1 "0xabc" "0xddf2" (Num 0) (Num 999)
    (Scripted.start [AxiosResolve (JObject [("status", JString "0")])])
  = (Return (JArray []),
     logged (Scripted.start [])
       [EvAxiosGet request;
        EvConsoleWarn
          (MsgWarnLogs "0xabc"
             (TypeError "Cannot read properties of undefined (reading 'slice')"))]).
Proof.
  intros request.
  exact (proj2 (proj1 (proj2 (client_never_throws (P := Scripted.platform) O "0xabc"
                                "0xddf2" (Num 0) (Num 999)
                                (Scripted.start
                                   [AxiosResolve (JObject [("status", JString "0")])]))))
           (JObject [("status", JString "0")]) []
           (TypeError "Cannot read properties of undefined (reading 'slice')")
           eq_refl eq_refl).
Defined.

(** The first of three windows meets a network error: the service goes on
    with the two others and returns their records. *)
Lemma transport_fault_absorbed_witness :
  fst (OnDoubles.getLogsByAddressTopic 4 1 "0xabc" "0xddf2" (Num 0) (Num 2999)
         (Scripted.start
            [AxiosReject Scripted.networkError; Scripted.noRecords;
             Scripted.body "1" "OK" (JArray Scripted.lastLogs)]))
  = Return Scripted.lastLogs.
Proof.
  rewrite (proj1 (proj2 (proj2 (proj2 (transport_fault_absorbed (P := Scripted.platform) O
                                  "0xabc" "0xddf2"
                                  (Scripted.start
                                     [AxiosReject Scripted.networkError;
                                      Scripted.noRecords;
                                      Scripted.body "1" "OK" (JArray Scripted.lastLogs)])))))
             4%nat 0 2999 Scripted.networkError
             [Scripted.noRecords; Scripted.body "1" "OK" (JArray Scripted.lastLogs)]
             ltac:(lia) ltac:(lia) ltac:(lia) ltac:(vm_compute; lia) eq_refl).
  reflexivity.
Defined.

(** C5 as the specification words it does not hold: a body that is not
    JSON comes back as text; the client returns the empty array, and the
    trace has the request and nothing else: no warning was printed. *)
Lemma malformed_body_not_warned :
  EtherscanAPI.getLogsByAddressTopic 1 "0xabc" "0xddf2" (Num 0) (Num 999)
    (Scripted.start [AxiosResolve (JString "<html>502 Bad Gateway</html>")])
  = (Return (JArray []),
     logged (Scripted.start [])
       [EvAxiosGet (ReqGetLogs (Num 0) (Num 999) "0xabc" "0xddf2" "KEY")])
  /\ EtherscanAPI.getInternalTransactionsByAddress 1 "0xabc" (Num 0) (Num 9999)
       (Scripted.start [AxiosResolve (JString "<html>502 Bad Gateway</html>")])
     = (Return (JArray []),
        logged (Scripted.start [])
          [EvAxiosGet (ReqTxListInternal "0xabc" "KEY" (Num 0) (Num 9999))]).
Proof. split; reflexivity. Qed.


(** One block, one window, one request. *)
Lemma single_block_one_window_witness :
  let request := ReqGetLogs (Num 42) (Num 42) "0xabc" "0xddf2" "KEY" in
  let run :=
    OnDoubles.getLogsByAddressTopic 2 1 "0xabc" "0xddf2" (Num 42) (Num 42)
      (Scripted.start [Scripted.body "1" "OK" (JArray Scripted.firstLogs)]) in
  run = (Return Scripted.firstLogs,
         logged (Scripted.start [])
           [EvConsoleLog (MsgProcessing (Num 42) (Num 42)); EvAxiosGet request])
  /\ requestsOf (trace (snd run)) = [request]
  /\ windowsLogged (trace (snd run)) = [(Num 42, Num 42)].
Proof.
  intros request run. subst run.
  rewrite (proj2 (proj2 (single_block_one_window (P := Scripted.platform) 42
                           ltac:(lia) ltac:(lia)))) by lia.
  repeat split.
Defined.

Section Stuck.
#[local] Existing Instance Scripted.platform.

Lemma doubleAdd_2_64 :
  doubleAdd (Num (2 ^ 64)) 999 = Num (2 ^ 64)
  /\ doubleAdd (Num (2 ^ 64)) 1000 = Num (2 ^ 64).
Proof. split; vm_compute; reflexivity. Qed.

(** At block 2^64 a pass of the loop over logs leaves the block where it
    was: against a remote that is down, one pass prints the window
    [2^64, 2^64], sends its request, warns, and the loop is where it
    started. *)
Lemma logsLoop_pass_at_2_64 (n : nat) (result : list JValue) (st : State) :
  (world st : list AxiosResult) = [] ->
  OnDoubles.logsLoop (S n) 1 "0xabc" "0xddf2" (Num (2 ^ 64)) (Num (2 ^ 64)) result st
  = OnDoubles.logsLoop n 1 "0xabc" "0xddf2" (Num (2 ^ 64)) (Num (2 ^ 64))
      (result ++ [])
      (logged st
         [EvConsoleLog (MsgProcessing (Num (2 ^ 64)) (Num (2 ^ 64)));
          EvAxiosGet (ReqGetLogs (Num (2 ^ 64)) (Num (2 ^ 64)) "0xabc" "0xddf2" "KEY");
          EvConsoleWarn (MsgWarnLogs "0xabc" Scripted.networkError)]).
Proof.
  intros Hw.
  change (OnDoubles.logsLoop (S n) 1 "0xabc" "0xddf2" (Num (2 ^ 64)) (Num (2 ^ 64))
            result)
    with (if numLe (Num (2 ^ 64)) (Num (2 ^ 64))
          then
            console_log (MsgProcessing (Num (2 ^ 64))
              (if numLt (doubleAdd (Num (2 ^ 64)) 999) (Num (2 ^ 64))
               then doubleAdd (Num (2 ^ 64)) 999 else Num (2 ^ 64))) ;;
            data <- EtherscanAPI.getLogsByAddressTopic 1 "0xabc" "0xddf2"
                      (Num (2 ^ 64))
                      (if numLt (doubleAdd (Num (2 ^ 64)) 999) (Num (2 ^ 64))
                       then doubleAdd (Num (2 ^ 64)) 999 else Num (2 ^ 64)) ;;
            items <- lift (spread data) ;;
            OnDoubles.logsLoop n 1 "0xabc" "0xddf2" (Num (2 ^ 64))
              (doubleAdd (Num (2 ^ 64)) 1000) (result ++ items)
          else ret result).
  rewrite (proj1 doubleAdd_2_64), (proj2 doubleAdd_2_64).
  unfold numLe, numLt. rewrite Z.leb_refl, Z.ltb_irrefl.
  unfold bind at 1, console_log, emit. unfold bind at 1.
  rewrite logs_attempt. cbn [world]. rewrite Hw. cbn [axios_get Scripted.platform fst snd].
  unfold bind at 1. cbn [spread lift ret].
  unfold logged, requested. cbn [world trace]. rewrite Hw, <- !app_assoc. reflexivity.
Qed.

Lemma logsLoop_stuck_at_2_64 (n : nat) :
  forall result (st : State),
  (world st : list AxiosResult) = [] ->
  let run :=
    OnDoubles.logsLoop n 1 "0xabc" "0xddf2" (Num (2 ^ 64)) (Num (2 ^ 64)) result st in
  fst run = OutOfFuel
  /\ windowsLogged (trace (snd run))
     = windowsLogged (trace st) ++ repeat (Num (2 ^ 64), Num (2 ^ 64)) n
  /\ requestsOf (trace (snd run))
     = requestsOf (trace st)
         ++ repeat (ReqGetLogs (Num (2 ^ 64)) (Num (2 ^ 64)) "0xabc" "0xddf2" "KEY") n.
Proof.
  induction n as [|n IH]; intros result st Hw run; subst run.
  - cbn. rewrite !app_nil_r. repeat split.
  - rewrite (logsLoop_pass_at_2_64 n result st Hw).
    destruct (IH (result ++ [])
                (logged st
                   [EvConsoleLog (MsgProcessing (Num (2 ^ 64)) (Num (2 ^ 64)));
                    EvAxiosGet (ReqGetLogs (Num (2 ^ 64)) (Num (2 ^ 64)) "0xabc" "0xddf2"
                                  "KEY");
                    EvConsoleWarn (MsgWarnLogs "0xabc" Scripted.networkError)])
                Hw) as (Ho & Hl & Hr).
    split; [exact Ho|]. split.
    + rewrite Hl. cbn [logged trace]. rewrite windowsLogged_app, <- app_assoc.
      reflexivity.
    + rewrite Hr. cbn [logged trace]. unfold requestsOf.
      rewrite flat_map_app, <- app_assoc. reflexivity.
Qed.

(** C7 as the specification words it does not hold.  For the single
    block 2^64, [block += 1000] gives 2^64 again: the operation over logs
    prints the window [2^64, 2^64] and sends its request at every pass, and
    however many passes it is given it has not returned. *)
Lemma single_block_never_ends_at_2_64 :
  doubleAdd (Num (2 ^ 64)) 1000 = Num (2 ^ 64)
  /\ forall lfuel,
       let run :=
         OnDoubles.getLogsByAddressTopic lfuel 1 "0xabc" "0xddf2"
           (Num (2 ^ 64)) (Num (2 ^ 64)) (Scripted.start []) in
       fst run = OutOfFuel
       /\ windowsLogged (trace (snd run)) = repeat (Num (2 ^ 64), Num (2 ^ 64)) lfuel
       /\ requestsOf (trace (snd run))
          = repeat (ReqGetLogs (Num (2 ^ 64)) (Num (2 ^ 64)) "0xabc" "0xddf2" "KEY") lfuel.
Proof.
  split; [exact (proj2 doubleAdd_2_64)|].
  intros lfuel run. subst run. unfold OnDoubles.getLogsByAddressTopic, tryCatch.
  destruct (logsLoop_stuck_at_2_64 lfuel [] (Scripted.start []) eq_refl)
    as (Ho & Hl & Hr).
  destruct (OnDoubles.logsLoop lfuel 1 "0xabc" "0xddf2" (Num (2 ^ 64)) (Num (2 ^ 64)) []
              (Scripted.start [])) as [[a|error|] st']; cbn [fst snd] in *;
    try discriminate.
  split; [reflexivity|]. split; [exact Hl|exact Hr].
Qed.

End Stuck.



(* ================================================================== *)
(** ** Further properties: the windows *)

Lemma windowsFrom_blocks (span step e : Z) (n : nat) :
  0 < step -> span = step - 1 ->
  forall s, Forall (fun w => 1 <= blocksOf w <= step) (windowsFrom n span step e s).
Proof.
  intros Hstep Hspan. induction n as [|n IH]; intros s; [constructor|].
  cbn [windowsFrom]. destruct (Z.leb_spec s e); [|constructor].
  constructor; [|apply IH].
  unfold blocksOf. cbn [fst snd].
  destruct (Z.ltb_spec (s + span) e); lia.
Qed.

Lemma windowsFrom_full (span step e : Z) (n : nat) :
  0 < step -> span = step - 1 ->
  forall s pre w post,
  windowsFrom n span step e s = pre ++ w :: post ->
  post <> [] -> blocksOf w = step.
Proof.
  intros Hstep Hspan. induction n as [|n IH]; intros s pre w post Heq Hpost.
  - destruct pre; discriminate.
  - cbn [windowsFrom] in Heq. destruct (Z.leb_spec s e); [|destruct pre; discriminate].
    destruct pre as [|x pre]; cbn [app] in Heq; injection Heq as Hw Hrest.
    + subst w. unfold blocksOf. cbn [fst snd].
      destruct n as [|n]; cbn [windowsFrom] in Hrest; [congruence|].
      destruct (Z.leb_spec (s + step) e); [|congruence].
      destruct (Z.ltb_spec (s + span) e); lia.
    + exact (IH _ _ _ _ Hrest Hpost).
Qed.

Section PrintedWindows.
Context {P : Platform}.
Variable call : number -> number -> M JValue.
Hypothesis call_windowsLogged :
  forall a b st, windowsLogged (trace (snd (call a b st))) = windowsLogged (trace st).

(** The windows a walk prints, for a range with start <= end. *)
Lemma printed_windows (span step s e : Z) (st : State) :
  0 < step -> span = step - 1 -> s <= e ->
  exists printed,
    windowsLogged (trace (snd (processWindows call (windows span step s e) [] st)))
    = windowsLogged (trace st) ++ asNumbers printed
    /\ (0 < List.length printed)%nat
    /\ Forall (fun w => 1 <= blocksOf w <= step) printed
    /\ (forall pre w post, printed = pre ++ w :: post -> post <> [] -> blocksOf w = step)
    /\ (e < s + step -> printed = [(s, e)]).
Proof.
  intros Hstep Hspan Hse.
  pose proof (windowsFrom_blocks span step e (Z.to_nat ((e - s) / step + 1))
                Hstep Hspan s) as Hall.
  pose proof (windowsFrom_full span step e (Z.to_nat ((e - s) / step + 1))
                Hstep Hspan s) as Hfull.
  fold (windows span step s e) in Hall, Hfull.
  assert (e < s + step -> windows span step s e = [(s, e)]) as Hone.
  { intros H. rewrite windows_cons, windows_empty by lia.
    destruct (Z.ltb_spec (s + span) e); [lia|reflexivity]. }
  assert (windows span step s e <> []) as Hne
    by (rewrite windows_cons by lia; discriminate).
  destruct (windows span step s e) as [|w ws]; [congruence|].
  destruct (processWindows_logged_first call call_windowsLogged w ws [] st) as [k Hk].
  exists (w :: firstn k ws). split; [exact Hk|]. split; [cbn; lia|].
  rewrite <- (firstn_skipn k ws) in Hall, Hfull, Hone.
  split; [|split].
  - inversion Hall as [|? ? Hw Hws]; subst. constructor; [exact Hw|].
    apply Forall_app in Hws. apply Hws.
  - intros pre w0 post Heq Hpost.
    apply (Hfull pre w0 (post ++ skipn k ws)).
    + change (w :: firstn k ws ++ skipn k ws) with ((w :: firstn k ws) ++ skipn k ws).
      rewrite Heq, <- app_assoc. reflexivity.
    + destruct post; [congruence|discriminate].
  - intros H. specialize (Hone H). injection Hone as -> Hws.
    apply app_eq_nil in Hws. destruct Hws as [-> _]. reflexivity.
Qed.

End PrintedWindows.

Section WindowSizes.
Context {P : Platform}.

(** X1.  For a range with 0 <= start <= end and end + 10000 <= 2^53, whatever
    the remote does, the windows a run of a windowed operation prints are
    at least one, each holds at least one block and at most the window size
    (10000 for internal transactions, 1000 for logs), each but the last
    printed holds exactly the window size, and a range of at most the
    window size is fetched as the one window from start to end. *)
Theorem window_sizes (s e : Z) :
  0 <= s -> s <= e -> e + 10000 <= 2 ^ 53 ->
  (forall lfuel rfuel address st,
     (List.length (internalTransactionWindows s e) < lfuel)%nat ->
     exists printed,
       windowsLogged
         (trace (snd (OnDoubles.getInternalTransactionsByAddress lfuel rfuel address
                        (Num s) (Num e) st)))
       = windowsLogged (trace st) ++ asNumbers printed
       /\ (0 < List.length printed)%nat
       /\ Forall (fun w => 1 <= blocksOf w <= 10000) printed
       /\ (forall pre w post,
             printed = pre ++ w :: post -> post <> [] -> blocksOf w = 10000)
       /\ (e < s + 10000 -> printed = [(s, e)]))
  /\
  (forall lfuel rfuel address topic st,
     (List.length (logWindows s e) < lfuel)%nat ->
     exists printed,
       windowsLogged
         (trace (snd (OnDoubles.getLogsByAddressTopic lfuel rfuel address topic
                        (Num s) (Num e) st)))
       = windowsLogged (trace st) ++ asNumbers printed
       /\ (0 < List.length printed)%nat
       /\ Forall (fun w => 1 <= blocksOf w <= 1000) printed
       /\ (forall pre w post,
             printed = pre ++ w :: post -> post <> [] -> blocksOf w = 1000)
       /\ (e < s + 1000 -> printed = [(s, e)])).
Proof.
  intros Hs Hse He. split.
  - intros lfuel rfuel address st Hfuel.
    rewrite onDoubles_internalTransactions_process by lia.
    rewrite tryCatch_warn_logged.
    apply printed_windows; try lia.
    intros. apply internalTransactions_windowsLogged.
  - intros lfuel rfuel address topic st Hfuel.
    rewrite onDoubles_logs_process by lia.
    rewrite tryCatch_warn_logged.
    apply printed_windows; try lia.
    intros. apply logs_windowsLogged.
Qed.

End WindowSizes.

Lemma window_sizes_witness :
  exists printed,
    windowsLogged
      (trace (snd (OnDoubles.getLogsByAddressTopic 4 1 "0xabc" "0xddf2"
                     (Num 0) (Num 2499)
                     (Scripted.start [Scripted.noRecords; Scripted.noRecords]))))
    = windowsLogged (trace (Scripted.start [Scripted.noRecords; Scripted.noRecords]))
        ++ asNumbers printed
    /\ (0 < List.length printed)%nat
    /\ Forall (fun w => 1 <= blocksOf w <= 1000) printed
    /\ (forall pre w post,
          printed = pre ++ w :: post -> post <> [] -> blocksOf w = 1000)
    /\ (2499 < 0 + 1000 -> printed = [(0, 2499)]).
Proof.
  exact (proj2 (window_sizes (P := Scripted.platform) 0 2499
                  ltac:(lia) ltac:(lia) ltac:(lia))
           4%nat 1%nat "0xabc" "0xddf2"
           (Scripted.start [Scripted.noRecords; Scripted.noRecords])
           ltac:(vm_compute; lia)).
Defined.

(* ================================================================== *)
(** ** Further properties: the service *)

Section ServiceEdges.
Context {P : Platform}.

(** X2.  The operations of the service throw nothing, whatever the client
    returns: their catch turns every exception into a warning and []. *)
Theorem service_never_throws (rfuel : nat) (address topic : string)
    (startblock endblock : number) (st : State) :
  isThrow (fst (EtherscanService.getInternalTransactionsByAddress rfuel address
                  startblock endblock st)) = false
  /\ isThrow (fst (EtherscanService.getLogsByAddressTopic rfuel address topic
                     startblock endblock st)) = false.
Proof.
  split; apply tryCatch_no_throw; reflexivity.
Qed.

(** X3.  When a bound of the range is NaN the loop condition is false at once:
    [] comes back, nothing is requested and nothing is printed. *)
Theorem nan_bound_fetches_nothing (rfuel : nat) (address topic : string)
    (bound : number) (st : State) :
  EtherscanService.getInternalTransactionsByAddress rfuel address NaN bound st
  = (Return [], st)
  /\ EtherscanService.getInternalTransactionsByAddress rfuel address bound NaN st
     = (Return [], st)
  /\ EtherscanService.getLogsByAddressTopic rfuel address topic NaN bound st
     = (Return [], st)
  /\ EtherscanService.getLogsByAddressTopic rfuel address topic bound NaN st
     = (Return [], st).
Proof.
  repeat split; destruct bound; reflexivity.
Qed.

End ServiceEdges.

(* ================================================================== *)
(** ** Further properties: the client *)

Lemma requestsOf_app (tr1 tr2 : list Event) :
  requestsOf (tr1 ++ tr2) = requestsOf tr1 ++ requestsOf tr2.
Proof. apply flat_map_app. Qed.

Lemma writesOf_app (tr1 tr2 : list Event) :
  writesOf (tr1 ++ tr2) = writesOf tr1 ++ writesOf tr2.
Proof. apply flat_map_app. Qed.

Lemma retryEvents_client (request : Request) warning (n : nat) :
  Forall (clientEvent request warning) (retryEvents request n).
Proof.
  induction n as [|n IH]; [constructor|]. cbn [retryEvents app].
  constructor; [left; reflexivity|].
  constructor; [right; left; reflexivity|].
  constructor; [right; right; left; reflexivity|]. exact IH.
Qed.

Lemma clientShape_retry request warning fuel before {A} (o : Outcome A) tr :
  clientShape request warning fuel
    ((before ++ [EvAxiosGet request]) ++ [EvConsoleLog MsgWaitRetry; EvSleep 1000])
    (o, tr) ->
  clientShape request warning (S fuel) before (o, tr).
Proof.
  unfold clientShape. cbn [fst snd]. destruct o as [a|error|].
  - intros (n & tail & Hn & Htr & Htail). exists (S n), tail.
    split; [lia|]. split; [|exact Htail].
    rewrite Htr. cbn [retryEvents]. rewrite <- !app_assoc. reflexivity.
  - exact (fun H => H).
  - intros ->. cbn [retryEvents]. rewrite <- !app_assoc. reflexivity.
Qed.

Lemma clientShape_once request warning fuel before {A} (a : A) tail :
  tail = [] \/ (exists error, tail = [EvConsoleWarn (warning error)]) ->
  clientShape request warning (S fuel) before
    (Return a, (before ++ [EvAxiosGet request]) ++ tail).
Proof.
  intros Htail. exists O, tail. split; [lia|]. split; [|exact Htail].
  cbn. rewrite <- app_assoc. reflexivity.
Qed.

Lemma clientShape_plain request warning fuel before {A} (a : A) :
  clientShape request warning (S fuel) before (Return a, before ++ [EvAxiosGet request]).
Proof.
  rewrite <- (app_nil_r (before ++ [EvAxiosGet request])).
  apply clientShape_once. left. reflexivity.
Qed.

Section ClientTrace.
Context {P : Platform}.

Lemma internalTransactions_shape fuel address startblock endblock :
  forall st,
  let run :=
    EtherscanAPI.getInternalTransactionsByAddress fuel address startblock endblock st in
  clientShape (ReqTxListInternal address ETHERSCAN_API_KEY startblock endblock)
    (MsgWarnInternalTxs address) fuel (trace st) (fst run, trace (snd run)).
Proof.
  induction fuel as [|fuel IH]; intros st run; subst run.
  - cbn. rewrite app_nil_r. reflexivity.
  - rewrite internalTransactions_attempt.
    destruct (axios_get _ (world st)) as [[error|data] w]; cbn [fst snd].
    + apply clientShape_once. right. exists error. reflexivity.
    + destruct (classify data) as [result| | |error].
      * apply clientShape_plain.
      * apply clientShape_plain.
      * apply clientShape_retry. apply (IH (logged (requested st _ w) _)).
      * apply clientShape_once. right. exists error. reflexivity.
Qed.

Lemma logs_shape fuel address topic startblock endblock :
  forall st,
  let run :=
    EtherscanAPI.getLogsByAddressTopic fuel address topic startblock endblock st in
  clientShape (ReqGetLogs startblock endblock address topic ETHERSCAN_API_KEY)
    (MsgWarnLogs address) fuel (trace st) (fst run, trace (snd run)).
Proof.
  induction fuel as [|fuel IH]; intros st run; subst run.
  - cbn. rewrite app_nil_r. reflexivity.
  - rewrite logs_attempt.
    destruct (axios_get _ (world st)) as [[error|data] w]; cbn [fst snd].
    + apply clientShape_once. right. exists error. reflexivity.
    + destruct (classify data) as [result| | |error].
      * apply clientShape_plain.
      * apply clientShape_plain.
      * apply clientShape_retry. apply (IH (logged (requested st _ w) _)).
      * apply clientShape_once. right. exists error. reflexivity.
Qed.

(** X8.  Whatever the remote does, one call of a windowed operation of the
    client adds to the trace: [n] rounds of (its request, the retry
    message, a sleep of 1000 ms), then, when it returns, the same request
    once more and at most one warning.  So it sends one request more than
    it sleeps, every request is the same, and while it has not returned it
    has used every attempt on a retry. *)
Theorem client_trace_shape (fuel : nat) (address topic : string)
    (startblock endblock : number) (st : State) :
  (let run :=
     EtherscanAPI.getInternalTransactionsByAddress fuel address startblock endblock st in
   clientShape (ReqTxListInternal address ETHERSCAN_API_KEY startblock endblock)
     (MsgWarnInternalTxs address) fuel (trace st) (fst run, trace (snd run)))
  /\
  (let run :=
     EtherscanAPI.getLogsByAddressTopic fuel address topic startblock endblock st in
   clientShape (ReqGetLogs startblock endblock address topic ETHERSCAN_API_KEY)
     (MsgWarnLogs address) fuel (trace st) (fst run, trace (snd run))).
Proof.
  split; [apply internalTransactions_shape|apply logs_shape].
Qed.

End ClientTrace.

(* ================================================================== *)
(** ** Further properties: what the service adds to the trace *)

Lemma clientShape_events request warning fuel before {A} (o : Outcome A) tr :
  clientShape request warning fuel before (o, tr) ->
  exists delta, tr = before ++ delta /\ Forall (clientEvent request warning) delta.
Proof.
  unfold clientShape. cbn [fst snd]. destruct o as [a|error|].
  - intros (n & tail & _ & -> & Htail). eexists. split; [reflexivity|].
    apply Forall_app. split; [apply retryEvents_client|].
    constructor; [left; reflexivity|].
    destruct Htail as [->|[error ->]]; [constructor|].
    constructor; [|constructor]. right. right. right. exists error. reflexivity.
  - intros [].
  - intros ->. eexists. split; [reflexivity|]. apply retryEvents_client.
Qed.



Section ServiceTrace.
Context {P : Platform}.
Variable call : number -> number -> M JValue.
Variable request : number -> number -> Request.
Variable warning : JSError -> ConsoleMessage.
Hypothesis call_events :
  forall a b st,
  exists delta,
    trace (snd (call a b st)) = trace st ++ delta
    /\ Forall (clientEvent (request a b) warning) delta.



End ServiceTrace.

Section ServiceNever.
Context {P : Platform}.


End ServiceNever.

(* ================================================================== *)
(** ** Further properties: a result that cannot be spread, a retry that
       does not end *)

Section ServiceAborts.
Context {P : Platform}.





End ServiceAborts.



(* ================================================================== *)
(** ** Further properties: the retry test, the latest block, [main] *)

Lemma strictEqString_eq (v : JValue) (literal : string) :
  strictEqString v literal = true <-> v = JString literal.
Proof.
  split.
  - destruct v; cbn; try discriminate. intros H. apply String.eqb_eq in H. congruence.
  - intros ->. cbn. apply String.eqb_refl.
Qed.

(** The hexadecimal digits of a positive number are read back by
    [parseDigits] in radix 16. *)
Lemma parseDigits_of_pos_start (p : positive) :
  forall rest : string,
  parseDigits 16 (HexString.Raw.of_pos p rest) None
  = parseDigits 16 rest (Some (Z.pos p)).
Proof.
  revert p. fix IH 1. intros p rest.
  do 4 try destruct p as [p|p|]; try reflexivity;
    cbn [HexString.Raw.of_pos]; rewrite (IH p); reflexivity.
Qed.

Lemma parseInt_hex (n : N) :
  parseInt (JString (HexString.of_N n)) 16 = roundInt (Z.of_N n).
Proof.
  destruct n as [|p]; [reflexivity|].
  unfold parseInt, HexString.of_N, HexString.of_pos.
  cbn [toString].
  change (trimStart (String "0" (String "x" (HexString.Raw.of_pos p ""))))
    with (String "0" (String "x" (HexString.Raw.of_pos p ""))).
  cbn [stripSign stripHexPrefix Z.eqb Z.ltb Z.compare orb Pos.compare Pos.compare_cont].
  change (16 =? 16)%positive with true. cbv iota.
  rewrite parseDigits_of_pos_start. cbn [parseDigits digitsToNumber].
  f_equal.
Qed.

Section LatestBlockMore.
Context {P : Platform}.

(** X9.  The windowed operations retry exactly on a body that is an object
    with status "0" and a string message whose first five characters are
    NOTOK, in capitals; their test throws nothing else than on a missing or
    unsliceable message or body. *)
Theorem retry_exactly_on_notok (data : JValue) (st : State) :
  EtherscanAPI.transientFailure data st = (Return true, st)
  <-> exists fields message,
        data = JObject fields
        /\ lookup "status" fields = JString "0"
        /\ lookup "message" fields = JString message
        /\ prefix "NOTOK" message = true.
Proof.
  rewrite transientFailure_classify. unfold classify. split.
  - destruct data; cbn; try discriminate.
    destruct (strictEqString (lookup "status" fields) "0") eqn:Hs.
    + apply strictEqString_eq in Hs.
      destruct (lookup "message" fields) eqn:Hm; cbn; try discriminate.
      * destruct (String.eqb (substring 0 5 s) "NOTOK") eqn:Hp; [|discriminate].
        intros _. exists fields, s. repeat split; trivial.
        apply prefix_correct. apply String.eqb_eq in Hp. exact Hp.
    + destruct (strictEqString (lookup "status" fields) "1"); discriminate.
  - intros (fields & message & -> & Hs & Hm & Hp). cbn. rewrite Hs, Hm. cbn.
    apply prefix_correct in Hp. cbn [String.length] in Hp. rewrite Hp. reflexivity.
Qed.

(** X10.  The block number the remote gives in hexadecimal with the
    prefix 0x comes back from [getLatestBlock], after that one request, as
    the double nearest to it: the number itself up to 2^53. *)
Theorem latest_block_hex_round_trip (n : N) (st : State) (data : JValue) (w' : World) :
  axios_get (ReqBlockNumber ETHERSCAN_API_KEY) (world st) = (AxiosResolve data, w') ->
  getProp data "result" = inr (JString (HexString.of_N n)) ->
  EtherscanAPI.getLatestBlock st
  = (Return (roundInt (Z.of_N n)), requested st (ReqBlockNumber ETHERSCAN_API_KEY) w')
  /\ (Z.of_N n <= 2 ^ 53 -> roundInt (Z.of_N n) = Num (Z.of_N n)).
Proof.
  intros Hget Hr. split.
  - rewrite getLatestBlock_cases, Hget. cbn [fst snd]. rewrite Hr.
    rewrite parseInt_hex. destruct n; reflexivity.
  - intros Hn. apply roundInt_safe. lia.
Qed.

(** X11.  What [getLatestBlock] throws is a new Error whose message is
    "Error fetching latest block: " followed by the text of the error it
    caught: the error of the transport when the request was rejected, the
    TypeError of reading [result] of an undefined or null body, and its own
    "Failed to get latest block number" when the result is falsy.  It
    throws in these three cases only. *)
Theorem latest_block_errors_wrapped (st : State) :
  let answer := fst (axios_get (ReqBlockNumber ETHERSCAN_API_KEY) (world st)) in
  let run := EtherscanAPI.getLatestBlock st in
  (forall cause, answer = AxiosReject cause -> fst run = Throw (wrapped cause))
  /\ (forall data cause,
        answer = AxiosResolve data ->
        getProp data "result" = inl cause ->
        fst run = Throw (wrapped cause))
  /\ (forall data result,
        answer = AxiosResolve data ->
        getProp data "result" = inr result ->
        truthy result = false ->
        fst run = Throw (wrapped (Error "Failed to get latest block number"))
        /\ wrapped (Error "Failed to get latest block number")
           = Error "Error fetching latest block: Error: Failed to get latest block number")
  /\ (forall error,
        fst run = Throw error ->
        (exists cause, answer = AxiosReject cause /\ error = wrapped cause)
        \/ (exists data cause,
              answer = AxiosResolve data
              /\ getProp data "result" = inl cause
              /\ error = wrapped cause)
        \/ (exists data result,
              answer = AxiosResolve data
              /\ getProp data "result" = inr result
              /\ truthy result = false
              /\ error = wrapped (Error "Failed to get latest block number"))).
Proof.
  intros answer run. subst answer run.
  rewrite getLatestBlock_cases.
  destruct (axios_get _ (world st)) as [[cause|data] w]; cbn [fst snd].
  - split; [|split; [|split]].
    + intros cause' [= <-]. reflexivity.
    + intros data cause' Hd. discriminate Hd.
    + intros data result Hd. discriminate Hd.
    + intros error [= <-]. left. exists cause. split; reflexivity.
  - split; [|split; [|split]].
    + intros cause Hd. discriminate Hd.
    + intros data' cause [= <-] Hr. rewrite Hr. reflexivity.
    + intros data' result [= <-] Hr Ht. rewrite Hr, Ht. split; reflexivity.
    + intros error Hrun. right.
      destruct (getProp data "result") as [cause|result] eqn:Hr.
      * left. exists data, cause. injection Hrun as <-.
        split; [reflexivity|]. split; [exact Hr|reflexivity].
      * right. exists data, result.
        destruct (truthy result); [discriminate|].
        injection Hrun as <-.
        split; [reflexivity|]. split; [exact Hr|]. split; reflexivity.
Qed.

End LatestBlockMore.

Lemma latest_block_hex_round_trip_witness :
  EtherscanAPI.getLatestBlock
    (Scripted.start [Scripted.body "1" "OK" (JString "0x1406f40")])
  = (Return (Num 21000000),
     logged (Scripted.start []) [EvAxiosGet (ReqBlockNumber "KEY")])
  /\ fst (EtherscanAPI.getLatestBlock
            (Scripted.start [Scripted.body "1" "OK" (JString "0x20000000000001")]))
     = Return (Num (2 ^ 53)).
Proof.
  split.
  - exact (proj1 (latest_block_hex_round_trip (P := Scripted.platform) 21000000
                    (Scripted.start [Scripted.body "1" "OK" (JString "0x1406f40")])
                    (JObject [("status", JString "1"); ("message", JString "OK");
                              ("result", JString "0x1406f40")])
                    [] eq_refl eq_refl)).
  - exact (f_equal fst
             (proj1 (latest_block_hex_round_trip (P := Scripted.platform)
                       9007199254740993
                       (Scripted.start
                          [Scripted.body "1" "OK" (JString "0x20000000000001")])
                       (JObject [("status", JString "1"); ("message", JString "OK");
                                 ("result", JString "0x20000000000001")])
                       [] eq_refl eq_refl))).
Defined.

Lemma latest_block_errors_wrapped_witness :
  fst (EtherscanAPI.getLatestBlock (Scripted.start []))
  = Throw (Error "Error fetching latest block: AxiosError: Network Error").
Proof.
  exact (proj1 (latest_block_errors_wrapped (P := Scripted.platform) (Scripted.start []))
           Scripted.networkError eq_refl).
Defined.

(* ================================================================== *)
(** ** Further properties: [main] of get-logs *)

Lemma clientEvent_no_write request warning delta :
  Forall (clientEvent request warning) delta -> writesOf delta = [].
Proof.
  induction 1 as [|ev delta Hev _ IH]; [reflexivity|].
  destruct Hev as [->|[->|[->|[error ->]]]]; exact IH.
Qed.

Section MainFacts.
Context {P : Platform}.

Lemma logs_client_writes fuel address topic startblock endblock st :
  writesOf (trace (snd (EtherscanAPI.getLogsByAddressTopic fuel address topic
                          startblock endblock st)))
  = writesOf (trace st).
Proof.
  assert (exists delta,
            trace (snd (EtherscanAPI.getLogsByAddressTopic fuel address topic
                          startblock endblock st))
            = trace st ++ delta
            /\ Forall (clientEvent
                         (ReqGetLogs startblock endblock address topic ETHERSCAN_API_KEY)
                         (MsgWarnLogs address)) delta) as (delta & Hd & Hc).
  { eapply clientShape_events. apply (logs_shape fuel address topic _ _ st). }
  rewrite Hd, writesOf_app, (clientEvent_no_write _ _ _ Hc). apply app_nil_r.
Qed.

(** The loop of the service writes no file, wherever its sums take it. *)
Lemma onDoubles_logsLoop_writes rfuel address topic endblock (n : nat) :
  forall block result st,
  writesOf (trace (snd (OnDoubles.logsLoop n rfuel address topic endblock block
                          result st)))
  = writesOf (trace st).
Proof.
  induction n as [|n IH]; intros block result st; [reflexivity|].
  cbn [OnDoubles.logsLoop]. destruct (numLe block endblock); [|reflexivity].
  unfold bind at 1, console_log, emit. cbn [world trace].
  match goal with
  | |- context [EtherscanAPI.getLogsByAddressTopic rfuel address topic ?a ?b] =>
      set (st1 := {| world := world st;
                     trace := trace st ++ [EvConsoleLog (MsgProcessing a b)] |});
      pose proof (logs_client_writes rfuel address topic a b st1) as Hc
  end.
  assert (writesOf (trace st1) = writesOf (trace st)) as H1.
  { subst st1. cbn [trace]. rewrite writesOf_app. apply app_nil_r. }
  unfold bind at 1.
  destruct (EtherscanAPI.getLogsByAddressTopic _ _ _ _ _ st1) as [[data|error|] st2];
    cbn [snd] in Hc.
  - unfold bind at 1. destruct (spread data) as [error|items]; cbn [lift throw ret].
    + cbn [snd]. rewrite Hc. exact H1.
    + rewrite IH, Hc. exact H1.
  - cbn [snd]. rewrite Hc. exact H1.
  - cbn [snd]. rewrite Hc. exact H1.
Qed.

Lemma onDoubles_logs_writes lfuel rfuel address topic startblock endblock st :
  writesOf (trace (snd (OnDoubles.getLogsByAddressTopic lfuel rfuel address topic
                          startblock endblock st)))
  = writesOf (trace st).
Proof.
  unfold OnDoubles.getLogsByAddressTopic, tryCatch.
  pose proof (onDoubles_logsLoop_writes rfuel address topic endblock lfuel
                startblock [] st) as Hw.
  destruct (OnDoubles.logsLoop _ _ _ _ _ _ _ st) as [[logs|error|] st']; cbn [snd] in Hw.
  - exact Hw.
  - cbn. rewrite writesOf_app, Hw. apply app_nil_r.
  - exact Hw.
Qed.

Lemma onDoubles_logs_no_throw lfuel rfuel address topic startblock endblock st :
  isThrow (fst (OnDoubles.getLogsByAddressTopic lfuel rfuel address topic
                  startblock endblock st)) = false.
Proof. apply tryCatch_no_throw. reflexivity. Qed.

Lemma getLatestBlock_trace st :
  trace (snd (EtherscanAPI.getLatestBlock st))
  = trace st ++ [EvAxiosGet (ReqBlockNumber ETHERSCAN_API_KEY)].
Proof.
  rewrite getLatestBlock_cases.
  destruct (axios_get _ (world st)) as [[error|data] w]; cbn [fst snd]; [reflexivity|].
  destruct (getProp data "result") as [error|result]; [reflexivity|].
  destruct (truthy result); reflexivity.
Qed.

Lemma getLatestBlock_ends st :
  fst (EtherscanAPI.getLatestBlock st) <> OutOfFuel.
Proof.
  rewrite getLatestBlock_cases.
  destruct (axios_get _ (world st)) as [[error|data] w]; cbn [fst snd]; [discriminate|].
  destruct (getProp data "result") as [error|result]; [discriminate|].
  destruct (truthy result); discriminate.
Qed.

Lemma main_cases lfuel rfuel address topic startBlock st :
  GetLogs.main lfuel rfuel address topic startBlock st
  = match EtherscanAPI.getLatestBlock st with
    | (Return endblock, st1) =>
        match OnDoubles.getLogsByAddressTopic lfuel rfuel address topic startBlock
                endblock
                (logged st1 [EvConsoleLog (MsgGettingLogs startBlock endblock)])
        with
        | (Return logs, st3) =>
            writeFileSync "./data/logs.json" logs
              (logged st3 [EvConsoleLog (MsgFound (List.length logs))])
        | (Throw error, st3) => (Throw error, st3)
        | (OutOfFuel, st3) => (OutOfFuel, st3)
        end
    | (Throw error, st1) => (Throw error, st1)
    | (OutOfFuel, st1) => (OutOfFuel, st1)
    end.
Proof.
  unfold GetLogs.main, bind at 1.
  destruct (EtherscanAPI.getLatestBlock st) as [[endblock|error|] st1]; reflexivity.
Qed.

(** X12.  [main] writes the file only after the block number was read and
    the fetch of the range from the start block to it has returned, and then
    once, as its last step, with the records the fetch returned, after
    printing their count: its outcome is then the outcome of that write, an
    exception when the write raises one (no directory ./data, say).  When
    [getLatestBlock] throws, [main] throws the same error and no write was
    tried; while the fetch has not returned, none was tried either. *)
Theorem main_writes_once_at_the_end (lfuel rfuel : nat) (address topic : string)
    (startBlock : number) (st : State) :
  let run := GetLogs.main lfuel rfuel address topic startBlock st in
  match EtherscanAPI.getLatestBlock st with
  | (Throw error, st1) =>
      run = (Throw error, st1) /\ writesOf (trace (snd run)) = writesOf (trace st)
  | (OutOfFuel, _) => False
  | (Return endblock, st1) =>
      match OnDoubles.getLogsByAddressTopic lfuel rfuel address topic startBlock endblock
              (logged st1 [EvConsoleLog (MsgGettingLogs startBlock endblock)])
      with
      | (Return logs, st3) =>
          let written := fs_writeFileSync "./data/logs.json" logs (world st3) in
          run
          = (match fst written with
             | Some error => Throw error
             | None => Return tt
             end,
             {| world := snd written;
                trace := trace st3 ++ [EvConsoleLog (MsgFound (List.length logs));
                                       EvWriteFile "./data/logs.json" logs] |})
          /\ writesOf (trace (snd run))
             = writesOf (trace st) ++ [("./data/logs.json", logs)]
      | (Throw _, _) => False
      | (OutOfFuel, st3) =>
          run = (OutOfFuel, st3) /\ writesOf (trace (snd run)) = writesOf (trace st)
      end
  end.
Proof.
  intros run. subst run. rewrite main_cases.
  pose proof (getLatestBlock_trace st) as Hlb.
  pose proof (getLatestBlock_ends st) as Hends.
  destruct (EtherscanAPI.getLatestBlock st) as [[endblock|error|] st1];
    cbn [fst snd] in *.
  - set (st2 := logged st1 [EvConsoleLog (MsgGettingLogs startBlock endblock)]).
    pose proof (onDoubles_logs_writes lfuel rfuel address topic startBlock endblock st2)
      as Hw.
    pose proof (onDoubles_logs_no_throw lfuel rfuel address topic startBlock endblock st2)
      as Hnt.
    assert (writesOf (trace st2) = writesOf (trace st)) as Hw2.
    { subst st2. cbn [logged trace]. rewrite Hlb, !writesOf_app. cbn.
      rewrite !app_nil_r. reflexivity. }
    destruct (OnDoubles.getLogsByAddressTopic lfuel rfuel address topic startBlock
                endblock st2) as [[logs|error|] st3]; cbn [fst snd] in *.
    + unfold writeFileSync, logged. cbn [world trace].
      destruct (fs_writeFileSync "./data/logs.json" logs (world st3)) as [failure w].
      cbn [fst snd]. rewrite <- app_assoc. cbn [app].
      split; [destruct failure; reflexivity|].
      destruct failure; cbn [snd trace]; rewrite !writesOf_app, Hw, Hw2; reflexivity.
    + discriminate.
    + split; [reflexivity|]. rewrite Hw. exact Hw2.
  - split; [reflexivity|]. rewrite Hlb, writesOf_app. cbn. apply app_nil_r.
  - apply Hends. reflexivity.
Qed.

(** X13.  When the result of the block-number call is truthy and [parseInt]
    reads no hexadecimal digit in it (the text of an error of the remote,
    say), [main], given one pass of the loop, goes on with NaN as the last
    block: no log is requested, "Found 0 Logs" is printed and the write of
    [] to the file is the last step, whose outcome is the outcome of
    [main]. *)
Theorem undecodable_latest_block_writes_empty_file (lfuel rfuel : nat)
    (address topic : string) (startBlock : number) (st : State)
    (data result : JValue) (w' : World) :
  axios_get (ReqBlockNumber ETHERSCAN_API_KEY) (world st) = (AxiosResolve data, w') ->
  getProp data "result" = inr result ->
  truthy result = true ->
  parseInt result 16 = NaN ->
  (0 < lfuel)%nat ->
  let written := fs_writeFileSync "./data/logs.json" [] w' in
  GetLogs.main lfuel rfuel address topic startBlock st
  = (match fst written with
     | Some error => Throw error
     | None => Return tt
     end,
     logged (requested st (ReqBlockNumber ETHERSCAN_API_KEY) (snd written))
       [EvConsoleLog (MsgGettingLogs startBlock NaN);
        EvConsoleLog (MsgFound 0);
        EvWriteFile "./data/logs.json" []]).
Proof.
  intros Hget Hr Ht Hnan Hfuel written. subst written. rewrite main_cases.
  rewrite getLatestBlock_cases, Hget. cbn [fst snd]. rewrite Hr, Ht, Hnan.
  destruct lfuel as [|n]; [lia|].
  assert (forall st0,
            OnDoubles.getLogsByAddressTopic (S n) rfuel address topic startBlock NaN st0
            = (Return [], st0)) as ->
    by (intros st0; destruct startBlock; reflexivity).
  unfold writeFileSync, logged, requested. cbn [world trace List.length].
  destruct (fs_writeFileSync "./data/logs.json" [] w') as [failure w].
  cbn [fst snd]. rewrite <- !app_assoc. cbn [app].
  destruct failure; reflexivity.
Qed.

End MainFacts.

Lemma main_writes_once_at_the_end_witness :
  GetLogs.main 3 2 "0xabc" "0xddf2" (Num 0)
    (Scripted.start [Scripted.body "1" "OK" (JString "0x3e7"); Scripted.body "1" "OK" (JArray Scripted.firstLogs)])
  = (Return tt,
     logged (Scripted.start [])
       [EvAxiosGet (ReqBlockNumber "KEY");
        EvConsoleLog (MsgGettingLogs (Num 0) (Num 999));
        EvConsoleLog (MsgProcessing (Num 0) (Num 999));
        EvAxiosGet (ReqGetLogs (Num 0) (Num 999) "0xabc" "0xddf2" "KEY");
        EvConsoleLog (MsgFound (List.length Scripted.firstLogs));
        EvWriteFile "./data/logs.json" Scripted.firstLogs])
  /\ fst (@GetLogs.main Scripted.platformWithoutData 3 2 "0xabc" "0xddf2" (Num 0)
            (@mkState Scripted.platformWithoutData
               [Scripted.body "1" "OK" (JString "0x3e7");
                Scripted.body "1" "OK" (JArray Scripted.firstLogs)] []))
     = Throw Scripted.noSuchDirectory.
Proof.
  split.
  - exact (proj1 (main_writes_once_at_the_end (P := Scripted.platform) 3 2 "0xabc" "0xddf2"
                    (Num 0)
                    (Scripted.start [Scripted.body "1" "OK" (JString "0x3e7");
                                     Scripted.body "1" "OK" (JArray Scripted.firstLogs)]))).
  - exact (f_equal fst
             (proj1 (main_writes_once_at_the_end (P := Scripted.platformWithoutData)
                       3 2 "0xabc" "0xddf2" (Num 0)
                       (@mkState Scripted.platformWithoutData
                          [Scripted.body "1" "OK" (JString "0x3e7");
                           Scripted.body "1" "OK" (JArray Scripted.firstLogs)] [])))).
Defined.

Lemma undecodable_latest_block_writes_empty_file_witness :
  GetLogs.main 1 3 "0xabc" "0xddf2" (Num 100)
    (Scripted.start
       [Scripted.body "0" "NOTOK" (JString "Max rate limit reached");
        Scripted.body "1" "OK" (JArray Scripted.firstLogs)])
  = (Return tt,
     logged (Scripted.start [Scripted.body "1" "OK" (JArray Scripted.firstLogs)])
       [EvAxiosGet (ReqBlockNumber "KEY");
        EvConsoleLog (MsgGettingLogs (Num 100) NaN);
        EvConsoleLog (MsgFound 0);
        EvWriteFile "./data/logs.json" []])
  /\ fst (@GetLogs.main Scripted.platformWithoutData 1 3 "0xabc" "0xddf2" (Num 100)
            (@mkState Scripted.platformWithoutData
               [Scripted.body "0" "NOTOK" (JString "Max rate limit reached")] []))
     = Throw Scripted.noSuchDirectory.
Proof.
  split.
  - exact (undecodable_latest_block_writes_empty_file (P := Scripted.platform)
             1 3 "0xabc" "0xddf2" (Num 100)
             (Scripted.start
                [Scripted.body "0" "NOTOK" (JString "Max rate limit reached");
                 Scripted.body "1" "OK" (JArray Scripted.firstLogs)])
             (JObject [("status", JString "0"); ("message", JString "NOTOK");
                       ("result", JString "Max rate limit reached")])
             (JString "Max rate limit reached")
             [Scripted.body "1" "OK" (JArray Scripted.firstLogs)]
             eq_refl eq_refl eq_refl eq_refl ltac:(lia)).
  - exact (f_equal fst
             (undecodable_latest_block_writes_empty_file (P := Scripted.platformWithoutData)
                1 3 "0xabc" "0xddf2" (Num 100)
                (@mkState Scripted.platformWithoutData
                   [Scripted.body "0" "NOTOK" (JString "Max rate limit reached")] [])
                (JObject [("status", JString "0"); ("message", JString "NOTOK");
                          ("result", JString "Max rate limit reached")])
                (JString "Max rate limit reached")
                []
                eq_refl eq_refl eq_refl eq_refl ltac:(lia))).
Defined.

(* ================================================================== *)
(** ** Further properties: a range cut at a window boundary *)


Section Resume.
Context {P : Platform}.



End Resume.

